(** * ec2_elasticsearch: the reconciler of an Elasticsearch/OpenSearch domain

    A shallow embedding of [library/ec2_elasticsearch.py].  The module is one
    routine, [main]: it builds the desired configuration from the parsed
    parameters, reads the domain, compares, and issues an update, a create,
    or nothing.

    The development has these parts:
    - [Py]: the Python values the routine handles (the JSON types and one
      kind of value that is not a JSON type), with the operators the source
      applies to them ([==], [in], subscripting, [str], [json.dumps]);
    - [Exec]: the control effects of the routine (local variables that
      survive an exception, raised exceptions, [SystemExit] from
      [fail_json]/[exit_json], the log of provider calls);
    - [Es]: the routine itself, in source order;
    - [Spec]: the words of the specification, as predicates on invocations;
    - [Sample]: the invocation of the module's EXAMPLES block and a few
      providers to run it against;
    - [ValueFacts], [ExecFacts], [EsFacts]: lemmas about each layer;
    - the properties of the specification, C1 to C10. *)

From Stdlib Require Import String Ascii List ZArith Bool.
From Stdlib Require Import DecimalString HexString.
Import ListNotations.
Local Open Scope string_scope.
Local Open Scope Z_scope.

(* ================================================================== *)
(** ** Python values *)
(* ================================================================== *)

Module Py.

#[local] Set Warnings "-register-all".

(** Exceptions the routine can meet.  [ClientError] carries
    [e.response['Error']['Code']], [e.response['Error']['Message']] and the
    name of the operation that failed. *)
Inductive pyexn : Type :=
| KeyError (key : string)
| TypeError (msg : string)
| ValueError (msg : string)
| ClientError (Code Message operation_name : string)
| BotoCoreError (msg : string).

(** The result of an expression that may raise. *)
Inductive except (A : Type) : Type :=
| OK (a : A)
| Err (e : pyexn).
Arguments OK {A} a.
Arguments Err {A} e.

(** Values.  Dictionaries keep insertion order and have string keys (every
    dictionary of the routine is built with string keys or comes from JSON).
    A character of a [string] stands for the code point of the same number.
    [PObject] is a plain [object()] instance, identified by its address: the
    one kind of value here that [json.dumps] refuses. *)
Inductive pyval : Type :=
| PNone
| PBool (b : bool)
| PInt (z : Z)
| PStr (s : string)
| PList (l : list pyval)
| PDict (d : list (string * pyval))
| PObject (addr : N).

Definition pydict : Type := list (string * pyval).

(** *** Dictionaries *)

(** [d.get(k)] *)
Fixpoint dict_get {A : Type} (d : list (string * A)) (k : string) : option A :=
  match d with
  | [] => None
  | (k', v) :: d' => if String.eqb k k' then Some v else dict_get d' k
  end.

(** [k in d] *)
Definition dict_mem {A : Type} (d : list (string * A)) (k : string) : bool :=
  match dict_get d k with Some _ => true | None => false end.

(** [d[k] = v]: a present key keeps its place, a new key goes last. *)
Fixpoint dict_set {A : Type} (d : list (string * A)) (k : string) (v : A)
  : list (string * A) :=
  match d with
  | [] => [(k, v)]
  | (k', v') :: d' =>
      if String.eqb k k' then (k', v) :: d' else (k', v') :: dict_set d' k v
  end.

(** *** Equality, [==] *)

(** [True == 1] and [False == 0] hold in Python; dictionaries are equal when
    they have as many keys and agree on each, whatever the order; lists are
    equal element by element; objects are equal to themselves only. *)
Fixpoint py_eq (a b : pyval) {struct a} : bool :=
  match a, b with
  | PNone, PNone => true
  | PBool x, PBool y => Bool.eqb x y
  | PBool x, PInt y => Z.eqb (Z.b2z x) y
  | PInt x, PBool y => Z.eqb x (Z.b2z y)
  | PInt x, PInt y => Z.eqb x y
  | PStr x, PStr y => String.eqb x y
  | PList l1, PList l2 =>
      (fix list_eq (l1 l2 : list pyval) {struct l1} : bool :=
         match l1, l2 with
         | [], [] => true
         | x :: l1', y :: l2' => py_eq x y && list_eq l1' l2'
         | _, _ => false
         end) l1 l2
  | PDict d1, PDict d2 =>
      Nat.eqb (length d1) (length d2) &&
      (fix all_in (d1 : list (string * pyval)) {struct d1} : bool :=
         match d1 with
         | [] => true
         | (k, v) :: d1' =>
             match dict_get d2 k with
             | Some v' => py_eq v v'
             | None => false
             end && all_in d1'
         end) d1
  | PObject x, PObject y => N.eqb x y
  | _, _ => false
  end.

(** [a != b] *)
Definition py_ne (a b : pyval) : bool := negb (py_eq a b).

(** Truth value of a value in a condition. *)
Definition py_truthy (v : pyval) : bool :=
  match v with
  | PNone => false
  | PBool b => b
  | PInt z => negb (Z.eqb z 0)
  | PStr s => negb (String.eqb s "")
  | PList l => match l with [] => false | _ => true end
  | PDict d => match d with [] => false | _ => true end
  | PObject _ => true
  end.

(** The name of a value's type, as error messages print it. *)
Definition type_name (v : pyval) : string :=
  match v with
  | PNone => "NoneType"
  | PBool _ => "bool"
  | PInt _ => "int"
  | PStr _ => "str"
  | PList _ => "list"
  | PDict _ => "dict"
  | PObject _ => "object"
  end.

(** *** Subscripting with a string key *)

(** [v[k]] *)
Definition py_getitem (v : pyval) (k : string) : except pyval :=
  match v with
  | PDict d =>
      match dict_get d k with
      | Some x => OK x
      | None => Err (KeyError k)
      end
  | PList _ => Err (TypeError "list indices must be integers or slices, not str")
  | PStr _ => Err (TypeError "string indices must be integers")
  | _ => Err (TypeError ("'" ++ type_name v ++ "' object is not subscriptable"))
  end.

(** [v[k] = x]; the result is the value after the assignment. *)
Definition py_setitem (v : pyval) (k : string) (x : pyval) : except pyval :=
  match v with
  | PDict d => OK (PDict (dict_set d k x))
  | PList _ => Err (TypeError "list indices must be integers or slices, not str")
  | _ => Err (TypeError ("'" ++ type_name v ++
                         "' object does not support item assignment"))
  end.

(** *** Membership and iteration *)

(** [needle in hay] on strings: the substring test. *)
Fixpoint str_contains (needle hay : string) : bool :=
  String.prefix needle hay ||
  match hay with
  | EmptyString => false
  | String _ hay' => str_contains needle hay'
  end.

(** [k in v] for a string [k]. *)
Definition py_contains (k : string) (v : pyval) : except bool :=
  match v with
  | PDict d => OK (dict_mem d k)
  | PList l => OK (existsb (py_eq (PStr k)) l)
  | PStr s => OK (str_contains k s)
  | _ => Err (TypeError ("argument of type '" ++ type_name v ++
                         "' is not iterable"))
  end.

Fixpoint chars (s : string) : list pyval :=
  match s with
  | EmptyString => []
  | String c s' => PStr (String c EmptyString) :: chars s'
  end.

(** What [for x in v] runs over: the elements of a list, the keys of a
    dictionary, the characters of a string. *)
Definition py_iter (v : pyval) : except (list pyval) :=
  match v with
  | PList l => OK l
  | PDict d => OK (map (fun kv => PStr (fst kv)) d)
  | PStr s => OK (chars s)
  | _ => Err (TypeError ("'" ++ type_name v ++ "' object is not iterable"))
  end.

(** *** Printing: [str], [repr] and [json.dumps] *)

Definition dquote : string := String (ascii_of_nat 34) EmptyString.
Definition backslash : string := String (ascii_of_nat 92) EmptyString.

Definition hex_digit (n : N) : string :=
  String.substring (N.to_nat n) 1 "0123456789abcdef".

(** Two lower-case hexadecimal digits of a code point below 256. *)
Definition hex2 (n : N) : string :=
  hex_digit (N.div n 16) ++ hex_digit (N.modulo n 16).

Fixpoint concat_map (f : ascii -> string) (s : string) : string :=
  match s with
  | EmptyString => ""
  | String c s' => f c ++ concat_map f s'
  end.

Definition str_of_int (z : Z) : string :=
  NilZero.string_of_int (Z.to_int z).

(** The code points of the Latin-1 range that [repr] prints as they are:
    all from 0xa1 on except the soft hyphen 0xad. *)
Definition printable_latin1 (n : N) : bool :=
  (N.leb 161 n && negb (N.eqb n 173))%N.

(** [repr] of a string: single quotes, unless the string holds a single
    quote and no double quote; the quote in use and the backslash are
    escaped, tab, newline and return have their short escapes, other
    control and unprintable code points are written [\xhh]. *)
Definition repr_char (quote : ascii) (c : ascii) : string :=
  let n := N_of_ascii c in
  if (Ascii.eqb c quote || N.eqb n 92)%bool then backslash ++ String c ""
  else if N.eqb n 9 then backslash ++ "t"
  else if N.eqb n 10 then backslash ++ "n"
  else if N.eqb n 13 then backslash ++ "r"
  else if (N.ltb n 32 || N.eqb n 127)%bool then backslash ++ "x" ++ hex2 n
  else if (N.leb 128 n && negb (printable_latin1 n))%bool
       then backslash ++ "x" ++ hex2 n
  else String c "".

Definition repr_str (s : string) : string :=
  let quote :=
    if (str_contains "'" s && negb (str_contains dquote s))%bool
    then ascii_of_nat 34 else ascii_of_nat 39 in
  String quote (concat_map (repr_char quote) s ++ String quote "").

Fixpoint py_repr (v : pyval) : string :=
  match v with
  | PNone => "None"
  | PBool true => "True"
  | PBool false => "False"
  | PInt z => str_of_int z
  | PStr s => repr_str s
  | PList l => "[" ++ String.concat ", " (map py_repr l) ++ "]"
  | PDict d =>
      "{" ++ String.concat ", "
               (map (fun kv => repr_str (fst kv) ++ ": " ++ py_repr (snd kv)) d)
          ++ "}"
  | PObject a => "<object object at " ++ HexString.of_N a ++ ">"
  end.

(** [str(v)], which is also what [%s] formats. *)
Definition py_str (v : pyval) : string :=
  match v with
  | PStr s => s
  | _ => py_repr v
  end.

(** [json.dumps] with its defaults ([ensure_ascii], separators [, ] and
    [: ]).  Inside a string the double quote, the backslash and the five
    short control escapes are written with a backslash, and every other code
    point outside the printable ASCII range as [\u00hh]. *)
Definition json_char (c : ascii) : string :=
  let n := N_of_ascii c in
  if N.eqb n 34 then backslash ++ dquote
  else if N.eqb n 92 then backslash ++ backslash
  else if N.eqb n 8 then backslash ++ "b"
  else if N.eqb n 12 then backslash ++ "f"
  else if N.eqb n 10 then backslash ++ "n"
  else if N.eqb n 13 then backslash ++ "r"
  else if N.eqb n 9 then backslash ++ "t"
  else if (N.ltb n 32 || N.ltb 126 n)%bool then backslash ++ "u00" ++ hex2 n
  else String c "".

Definition json_string (s : string) : string :=
  dquote ++ concat_map json_char s ++ dquote.

Fixpoint json_text (v : pyval) : string :=
  match v with
  | PNone => "null"
  | PBool true => "true"
  | PBool false => "false"
  | PInt z => str_of_int z
  | PStr s => json_string s
  | PList l => "[" ++ String.concat ", " (map json_text l) ++ "]"
  | PDict d =>
      "{" ++ String.concat ", "
               (map (fun kv => json_string (fst kv) ++ ": " ++ json_text (snd kv)) d)
          ++ "}"
  | PObject _ => ""
  end.

(** The values [json.dumps] accepts: all but those holding an object. *)
Fixpoint serializable (v : pyval) : bool :=
  match v with
  | PList l => forallb serializable l
  | PDict d => forallb (fun kv => serializable (snd kv)) d
  | PObject _ => false
  | _ => true
  end.

(** [str(e)]: the message of the exception; a [KeyError] prints the repr of
    its key, a [ClientError] the sentence of the SDK (here without retry
    information). *)
Definition exn_str (e : pyexn) : string :=
  match e with
  | KeyError k => repr_str k
  | TypeError m | ValueError m | BotoCoreError m => m
  | ClientError c m op =>
      "An error occurred (" ++ c ++ ") when calling the " ++ op
        ++ " operation: " ++ m
  end.

Definition json_dumps (v : pyval) : except string :=
  if serializable v then OK (json_text v)
  else Err (TypeError "Object of type object is not JSON serializable").

End Py.

(* ================================================================== *)
(** ** Effects of the routine *)
(* ================================================================== *)

Module Exec.
Import Py.

(** The three provider calls, with their keyword arguments. *)
Inductive api_call : Type :=
| describe_elasticsearch_domain (DomainName : string)
| update_elasticsearch_domain_config (keyword_args : pydict)
| create_elasticsearch_domain (keyword_args : pydict).

(** [module.exit_json] and [module.fail_json] print their result and raise
    [SystemExit], which no handler of the routine catches. *)
Inductive sysexit : Type :=
| ExitJson (changed : bool) (response : pyval)
| FailJson (msg : string).

(** How an invocation ends. *)
Inductive outcome : Type :=
| Exited (s : sysexit)
| Uncaught (e : pyexn).

(** The local variables that are assigned inside the [try] block and read
    after an exception ([changed], [pdoc]), and the provider calls issued so
    far, oldest first. *)
Record locals : Type := mkLocals {
  changed : bool;
  pdoc : string;
  calls : list api_call;
}.

Inductive result (A : Type) : Type :=
| Val (a : A)
| Raise (e : pyexn)
| Exit (s : sysexit).
Arguments Val {A} a.
Arguments Raise {A} e.
Arguments Exit {A} s.

(** A statement: from the locals to a result and the locals after it.  The
    locals are kept when the statement raises. *)
Definition M (A : Type) : Type := locals -> result A * locals.

Definition ret {A} (a : A) : M A := fun st => (Val a, st).

Definition bind {A B} (m : M A) (k : A -> M B) : M B :=
  fun st =>
    match m st with
    | (Val a, st') => k a st'
    | (Raise e, st') => (Raise e, st')
    | (Exit s, st') => (Exit s, st')
    end.

Definition raise {A} (e : pyexn) : M A := fun st => (Raise e, st).

Definition lift {A} (x : except A) : M A :=
  match x with
  | OK a => ret a
  | Err e => raise e
  end.

Definition exit_json {A} (c : bool) (response : pyval) : M A :=
  fun st => (Exit (ExitJson c response), st).

Definition fail_json {A} (msg : string) : M A :=
  fun st => (Exit (FailJson msg), st).

Definition get_changed : M bool := fun st => (Val (changed st), st).
Definition get_pdoc : M string := fun st => (Val (pdoc st), st).

Definition set_changed (b : bool) : M unit :=
  fun st => (Val tt, mkLocals b (pdoc st) (calls st)).

Definition set_pdoc (s : string) : M unit :=
  fun st => (Val tt, mkLocals (changed st) s (calls st)).

(** [if c: m] *)
Definition when (c : bool) (m : M unit) : M unit :=
  if c then m else ret tt.

(** [try: body / except botocore.exceptions.ClientError as e: handler]:
    only a [ClientError] is handled. *)
Definition try_except_ClientError {A} (body : M A)
    (handler : string -> string -> M A) : M A :=
  fun st =>
    match body st with
    | (Raise (ClientError code message _), st') => handler code message st'
    | r => r
    end.

Declare Scope exec_scope.
Delimit Scope exec_scope with exec.
Notation "x <- m ;; k" := (bind m (fun x => k))
  (at level 61, m at next level, right associativity) : exec_scope.
Notation "m ;; k" := (bind m (fun _ => k))
  (at level 61, right associativity) : exec_scope.

(** The provider, seen from the routine: the answer to a call may depend on
    the calls issued before it.  [json.loads] is library code; the
    development holds for any decoder. *)
Record environment : Type := mkEnv {
  HAS_BOTO : bool;
  client : list api_call -> api_call -> except pyval;
  json_loads : string -> except pyval;
}.

(** A provider call: it is logged, then answers or raises. *)
Definition call (env : environment) (c : api_call) : M pyval :=
  fun st =>
    let st' := mkLocals (changed st) (pdoc st) (calls st ++ [c]) in
    match client env (calls st) c with
    | OK response => (Val response, st')
    | Err e => (Raise e, st')
    end.

(** *** What a statement keeps *)

(** A relation that holds between the locals at any two points of a run
    where one comes after the other. *)
Record progress : Type := mkProgress {
  rel :> locals -> locals -> Prop;
  rel_refl : forall st, rel st st;
  rel_trans : forall a b c, rel a b -> rel b c -> rel a c;
}.

Definition frame (R : progress) {A} (m : M A) : Prop :=
  forall st, R st (snd (m st)).

(** The provider calls are the same. *)
Definition same_calls : progress.
Proof.
  refine (mkProgress (fun a b => calls b = calls a) _ _).
  - reflexivity.
  - intros a b c H1 H2. now rewrite H2.
Defined.

(** [changed], once set, stays set. *)
Definition changed_stays : progress.
Proof.
  refine (mkProgress (fun a b => changed a = true -> changed b = true) _ _).
  - auto.
  - auto.
Defined.

(** Nothing but [pdoc] is assigned. *)
Definition only_pdoc : progress.
Proof.
  refine (mkProgress
            (fun a b => changed b = changed a /\ calls b = calls a) _ _).
  - auto.
  - intros a b c [H1 H2] [H3 H4]. split; congruence.
Defined.

(** Nothing but [changed] is assigned, and only to [True]. *)
Definition only_changed : progress.
Proof.
  refine (mkProgress
            (fun a b => pdoc b = pdoc a /\ calls b = calls a /\
                        (changed a = true -> changed b = true)) _ _).
  - auto.
  - intros a b c (H1 & H2 & H3) (H4 & H5 & H6). repeat split; try congruence.
    auto.
Defined.

(** Every call issued satisfies [ok], if those before did. *)
Definition calls_all (ok : api_call -> Prop) : progress.
Proof.
  refine (mkProgress
            (fun a b => Forall ok (calls a) -> Forall ok (calls b)) _ _).
  - auto.
  - auto.
Defined.

(** The calls issued so far stay, in their order. *)
Definition calls_grow : progress.
Proof.
  refine (mkProgress
            (fun a b => exists l, calls b = (calls a ++ l)%list) _ _).
  - intros st. exists []. now rewrite app_nil_r.
  - intros a b c [l1 H1] [l2 H2]. exists (l1 ++ l2)%list.
    now rewrite H2, H1, app_assoc.
Defined.

(** Every exit of the statement satisfies [Q]. *)
Definition exits (Q : sysexit -> Prop) {A} (m : M A) : Prop :=
  forall st s, fst (m st) = Exit s -> Q s.

End Exec.

(* ================================================================== *)
(** ** The routine *)
(* ================================================================== *)

Module Es.
Import Py Exec.
Local Open Scope exec_scope.

(** [module.params] after the harness has parsed and typed the arguments
    ([argument_spec], lines 233-262): a [bool] parameter is a boolean, an
    [int] parameter an integer, a [list] of [str] a list of strings, a
    parameter that is not required and has no default may be [None].
    [access_policies] has type [dict]: the field holds its items. *)
Record params : Type := mkParams {
  name : string;
  instance_type : string;
  instance_count : Z;
  dedicated_master : bool;
  zone_awareness : bool;
  availability_zone_count : option Z;
  dedicated_master_instance_type : option string;
  dedicated_master_instance_count : option Z;
  ebs : bool;
  volume_type : string;
  volume_size : Z;
  iops : option Z;
  warm_enabled : bool;
  warm_type : option string;
  warm_count : option Z;
  cold_storage_enabled : bool;
  access_policies : pydict;
  vpc_subnets : option (list string);
  vpc_security_groups : option (list string);
  snapshot_hour : Z;
  engine_type : string;
  elasticsearch_version : string;
  encryption_at_rest_enabled : bool;
  encryption_at_rest_kms_key_id : option string;
  cognito_enabled : bool;
  cognito_user_pool_id : option string;
  cognito_identity_pool_id : option string;
  cognito_role_arn : option string;
}.

Definition opt_str (o : option string) : pyval :=
  match o with Some s => PStr s | None => PNone end.

Definition opt_int (o : option Z) : pyval :=
  match o with Some z => PInt z | None => PNone end.

Definition str_list (l : list string) : pyval := PList (map PStr l).

(** *** The desired configuration (lines 281-347) *)

(** Lines 281-298 and 334-336. *)
Definition cluster_config (p : params) : pydict :=
  let cluster_config :=
    [ ("InstanceType", PStr (instance_type p));
      ("InstanceCount", PInt (instance_count p));
      ("DedicatedMasterEnabled", PBool (dedicated_master p));
      ("ZoneAwarenessEnabled", PBool (zone_awareness p));
      ("WarmEnabled", PBool (warm_enabled p));
      ("ColdStorageOptions",
        PDict [("Enabled", PBool (cold_storage_enabled p))]) ] in
  let cluster_config :=
    if zone_awareness p
    then dict_set cluster_config "ZoneAwarenessConfig"
           (PDict [("AvailabilityZoneCount",
                    opt_int (availability_zone_count p))])
    else cluster_config in
  let cluster_config :=
    if warm_enabled p
    then dict_set (dict_set cluster_config "WarmType" (opt_str (warm_type p)))
           "WarmCount" (opt_int (warm_count p))
    else cluster_config in
  if dedicated_master p
  then dict_set
         (dict_set cluster_config "DedicatedMasterType"
            (opt_str (dedicated_master_instance_type p)))
         "DedicatedMasterCount" (opt_int (dedicated_master_instance_count p))
  else cluster_config.

(** Lines 300-302 and 338-343. *)
Definition ebs_options (p : params) : pydict :=
  let ebs_options := [("EBSEnabled", PBool (ebs p))] in
  let ebs_options :=
    if ebs p
    then dict_set (dict_set ebs_options "VolumeType" (PStr (volume_type p)))
           "VolumeSize" (PInt (volume_size p))
    else ebs_options in
  match iops p with
  | Some n => dict_set ebs_options "Iops" (PInt n)
  | None => ebs_options
  end.

(** Lines 304-310. *)
Definition encryption_at_rest_options (p : params) : pydict :=
  let encryption_at_rest_options :=
    [("Enabled", PBool (encryption_at_rest_enabled p))] in
  if encryption_at_rest_enabled p
  then dict_set encryption_at_rest_options "KmsKeyId"
         (opt_str (encryption_at_rest_kms_key_id p))
  else encryption_at_rest_options.

(** Lines 312-319. *)
Definition cognito_options (p : params) : pydict :=
  if cognito_enabled p
  then dict_set
         (dict_set
            (dict_set (dict_set [] "Enabled" (PBool true))
               "UserPoolId" (opt_str (cognito_user_pool_id p)))
            "IdentityPoolId" (opt_str (cognito_identity_pool_id p)))
         "RoleArn" (opt_str (cognito_role_arn p))
  else dict_set [] "Enabled" (PBool false).

(** Lines 321-332.  A key is set only for a list that is given and not
    empty.  (The parameters are lists, so the branches that split a
    comma-separated string are not taken.) *)
Definition vpc_options (p : params) : pydict :=
  let vpc_options := [] in
  let vpc_options :=
    match vpc_subnets p with
    | Some ((_ :: _) as l) => dict_set vpc_options "SubnetIds" (str_list l)
    | _ => vpc_options
    end in
  match vpc_security_groups p with
  | Some ((_ :: _) as l) => dict_set vpc_options "SecurityGroupIds" (str_list l)
  | _ => vpc_options
  end.

(** Lines 345-347. *)
Definition snapshot_options (p : params) : pydict :=
  [("AutomatedSnapshotStartHour", PInt (snapshot_hour p))].

(** *** The read path (lines 357-403) *)

(** Lines 362-366, the loop over the statements still to visit.  A statement
    is changed in place, so the policy serialized at line 366 holds the
    statements visited so far as they are now, and the rest untouched.  (The
    parameters come out of the harness as a tree: no statement is shared.) *)
Fixpoint normalize_statements (status : pyval) (policy_dict : pydict)
    (visited rest : list pyval) : M (list pyval) :=
  match rest with
  | [] => ret visited
  | statement :: rest' =>
      has_resource <- lift (py_contains "Resource" statement) ;;
      if has_resource
      then normalize_statements status policy_dict (visited ++ [statement]) rest'
      else
        arn <- lift (py_getitem status "ARN") ;;
        statement' <- lift (py_setitem statement "Resource"
                              (PStr (py_str arn ++ "/*"))) ;;
        s <- lift (json_dumps
                     (PDict (dict_set policy_dict "Statement"
                               (PList (visited ++ statement' :: rest'))))) ;;
        set_pdoc s ;;
        normalize_statements status policy_dict (visited ++ [statement']) rest'
  end.

(** Lines 361-366; the result is [policy_dict] after the loop.  Only the
    elements of a list can be assigned to: the keys of a dictionary and the
    characters of a string are strings. *)
Definition normalize_policy (status : pyval) (policy_dict : pydict)
  : M pydict :=
  statements <- lift (py_getitem (PDict policy_dict) "Statement") ;;
  items <- lift (py_iter statements) ;;
  items' <- normalize_statements status policy_dict [] items ;;
  ret (match statements with
       | PList _ => dict_set policy_dict "Statement" (PList items')
       | _ => policy_dict
       end).

(** [json.loads(v)] *)
Definition loads (env : environment) (v : pyval) : except pyval :=
  match v with
  | PStr s => json_loads env s
  | _ => Err (TypeError ("the JSON object must be str, bytes or bytearray, not "
                         ++ type_name v))
  end.

(** Lines 368-375 and 383-384, one block:
    [if status[key] != desired: changed = True]. *)
Definition compare_block (status : pyval) (key : string) (desired : pydict)
  : M unit :=
  current <- lift (py_getitem status key) ;;
  when (py_ne current (PDict desired)) (set_changed true).

(** Lines 378-381, one field of the VPC options. *)
Definition compare_vpc_field (status : pyval) (p : params) (key : string)
  : M unit :=
  current <- lift (py_getitem status "VPCOptions") ;;
  current <- lift (py_getitem current key) ;;
  desired <- lift (py_getitem (PDict (vpc_options p)) key) ;;
  when (py_ne current desired) (set_changed true).

(** Lines 377-381. *)
Definition compare_vpc (status : pyval) (p : params) : M unit :=
  has_vpc <- lift (py_contains "VPCOptions" status) ;;
  when has_vpc
    (compare_vpc_field status p "SubnetIds" ;;
     compare_vpc_field status p "SecurityGroupIds").

(** Lines 386-388. *)
Definition compare_policy (env : environment) (status : pyval)
    (policy_dict : pydict) : M unit :=
  current <- lift (py_getitem status "AccessPolicies") ;;
  current_policy_dict <- lift (loads env current) ;;
  when (py_ne current_policy_dict (PDict policy_dict)) (set_changed true).

(** Lines 368-388. *)
Definition detect_changes (env : environment) (p : params)
    (status : pyval) (policy_dict : pydict) : M unit :=
  compare_block status "ElasticsearchClusterConfig" (cluster_config p) ;;
  compare_block status "EBSOptions" (ebs_options p) ;;
  compare_block status "CognitoOptions" (cognito_options p) ;;
  compare_vpc status p ;;
  compare_block status "SnapshotOptions" (snapshot_options p) ;;
  compare_policy env status policy_dict.

(** Lines 400-401 and 421-422:
    [if vpc_options['SubnetIds'] or vpc_options['SecurityGroupIds']:
       keyword_args['VPCOptions'] = vpc_options]. *)
Definition with_vpc_options (p : params) (keyword_args : pydict)
  : except pydict :=
  match py_getitem (PDict (vpc_options p)) "SubnetIds" with
  | Err e => Err e
  | OK subnets =>
      if py_truthy subnets
      then OK (dict_set keyword_args "VPCOptions" (PDict (vpc_options p)))
      else
        match py_getitem (PDict (vpc_options p)) "SecurityGroupIds" with
        | Err e => Err e
        | OK groups =>
            if py_truthy groups
            then OK (dict_set keyword_args "VPCOptions" (PDict (vpc_options p)))
            else OK keyword_args
        end
  end.

(** Lines 391-398. *)
Definition update_keyword_args (p : params) (pdoc : string) : pydict :=
  [ ("DomainName", PStr (name p));
    ("ElasticsearchClusterConfig", PDict (cluster_config p));
    ("EBSOptions", PDict (ebs_options p));
    ("SnapshotOptions", PDict (snapshot_options p));
    ("AccessPolicies", PStr pdoc);
    ("CognitoOptions", PDict (cognito_options p)) ].

(** Lines 390-403. *)
Definition update_if_changed (env : environment) (p : params) : M unit :=
  c <- get_changed ;;
  when c
    (s <- get_pdoc ;;
     keyword_args <- lift (with_vpc_options p (update_keyword_args p s)) ;;
     call env (update_elasticsearch_domain_config keyword_args) ;;
     ret tt).

(** Lines 357-403, the body of the [try]. *)
Definition try_body (env : environment) (p : params) : M unit :=
  response <- call env (describe_elasticsearch_domain (name p)) ;;
  status <- lift (py_getitem response "DomainStatus") ;;
  policy_dict <- normalize_policy status (access_policies p) ;;
  detect_changes env p status policy_dict ;;
  update_if_changed env p.

(** *** The handler (lines 405-427) *)

(** Lines 409-419. *)
Definition create_keyword_args (p : params) (pdoc : string) : pydict :=
  let engine_version := engine_type p ++ "_" ++ elasticsearch_version p in
  [ ("DomainName", PStr (name p));
    ("EngineVersion", PStr engine_version);
    ("EncryptionAtRestOptions", PDict (encryption_at_rest_options p));
    ("ElasticsearchClusterConfig", PDict (cluster_config p));
    ("EBSOptions", PDict (ebs_options p));
    ("SnapshotOptions", PDict (snapshot_options p));
    ("AccessPolicies", PStr pdoc);
    ("CognitoOptions", PDict (cognito_options p)) ].

Definition except_ClientError (env : environment) (p : params)
    (Code Message : string) : M unit :=
  set_changed true ;;
  if String.eqb Code "ResourceNotFoundException"
  then
    s <- get_pdoc ;;
    keyword_args <- lift (with_vpc_options p (create_keyword_args p s)) ;;
    call env (create_elasticsearch_domain keyword_args) ;;
    ret tt
  else fail_json ("Error: " ++ Code ++ " " ++ Message).

(** *** [main] (lines 275-276 and 349-431) *)

(** Lines 429-431. *)
Definition report (env : environment) (p : params) : M Empty_set :=
  response <- call env (describe_elasticsearch_domain (name p)) ;;
  c <- get_changed ;;
  exit_json c response.

(** Lines 356-427. *)
Definition reconcile (env : environment) (p : params) : M unit :=
  try_except_ClientError (try_body env p) (except_ClientError env p).

Definition main_body (env : environment) (p : params) : M Empty_set :=
  if negb (HAS_BOTO env)
  then fail_json
         "boto3 required for this module, install via pip or your package manager"
  else
    set_changed false ;;
    match json_dumps (PDict (access_policies p)) with
    | OK s => set_pdoc s
    | Err e =>
        fail_json ("Failed to convert the policy into valid JSON: " ++ exn_str e)
    end ;;
    reconcile env p ;;
    report env p.

(** The locals on entry: nothing assigned, nothing called. *)
Definition entry : locals := mkLocals false "" [].

(** How a result of [main_body] ends the invocation.  ([main_body] ends in
    [exit_json]: it has no value to return.) *)
Definition outcome_of (r : result Empty_set) : outcome :=
  match r with
  | Val x => match x with end
  | Raise e => Uncaught e
  | Exit s => Exited s
  end.

(** An invocation: how it ends, and the provider calls it issued. *)
Definition main (env : environment) (p : params) : outcome * list api_call :=
  let (r, st) := main_body env p entry in (outcome_of r, calls st).

End Es.

(* ================================================================== *)
(** ** The vocabulary of the specification *)
(* ================================================================== *)

Module Spec.
Import Py Exec Es.

Definition describe (p : params) : api_call :=
  describe_elasticsearch_domain (name p).

(** The invocation reaches the first read of the domain, and the provider
    answers it with [r]: the SDK is there, the access policy serializes, and
    [r] is the answer to a first call that describes the domain. *)
Definition reads (env : environment) (p : params) (r : except pyval) : Prop :=
  HAS_BOTO env = true /\
  serializable (PDict (access_policies p)) = true /\
  client env [] (describe p) = r.

(** The locals when the [try] block is entered. *)
Definition at_try (p : params) : locals :=
  mkLocals false (json_text (PDict (access_policies p))) [].

(** The locals after a first read. *)
Definition after_read (p : params) (s : string) : locals :=
  mkLocals false s [describe p].

(** The read succeeds on a domain with this status and this ARN. *)
Definition existing_domain (env : environment) (p : params)
    (status : pydict) (arn : string) : Prop :=
  exists response,
    reads env p (OK response) /\
    py_getitem response "DomainStatus" = OK (PDict status) /\
    dict_get status "ARN" = Some (PStr arn).

(** The read fails with a provider error. *)
Definition read_fails (env : environment) (p : params)
    (code message : string) : Prop :=
  exists operation_name,
    reads env p (Err (ClientError code message operation_name)).

Definition is_dict (v : pyval) : bool :=
  match v with PDict _ => true | _ => false end.

(** An access policy document: its [Statement] is a list of statement
    objects. *)
Definition policy_document (policy : pydict) : bool :=
  match dict_get policy "Statement" with
  | Some (PList statements) => forallb is_dict statements
  | _ => false
  end.

Definition lacks_resource (statement : pyval) : bool :=
  match statement with
  | PDict d => negb (dict_mem d "Resource")
  | _ => false
  end.

(** What the provider does to a statement: one without a resource gets the
    domain's own, [arn/*]. *)
Definition populate (arn : string) (statement : pyval) : pyval :=
  match statement with
  | PDict d =>
      if dict_mem d "Resource" then statement
      else PDict (dict_set d "Resource" (PStr (arn ++ "/*")))
  | _ => statement
  end.

(** The policy with every statement populated. *)
Definition populated (arn : string) (policy : pydict) : pydict :=
  match dict_get policy "Statement" with
  | Some (PList statements) =>
      dict_set policy "Statement" (PList (map (populate arn) statements))
  | _ => policy
  end.

(** The current block under [key] equals the desired block. *)
Definition block_equal (status : pydict) (key : string) (desired : pydict)
  : bool :=
  match dict_get status key with
  | Some current => py_eq current (PDict desired)
  | None => false
  end.

(** Both dictionaries have the field, with equal values. *)
Definition field_equal (current desired : pydict) (key : string) : bool :=
  match dict_get current key, dict_get desired key with
  | Some x, Some y => py_eq x y
  | _, _ => false
  end.

(** The VPC options, when the status has them, agree with the desired ones
    on the subnets and on the security groups. *)
Definition vpc_equal (status : pydict) (p : params) : bool :=
  match dict_get status "VPCOptions" with
  | None => true
  | Some (PDict current) =>
      field_equal current (vpc_options p) "SubnetIds" &&
      field_equal current (vpc_options p) "SecurityGroupIds"
  | Some _ => false
  end.

(** The access policy of the status parses to a document equal to
    [desired]. *)
Definition policy_equal (env : environment) (status : pydict)
    (desired : pydict) : bool :=
  match dict_get status "AccessPolicies" with
  | Some (PStr text) =>
      match json_loads env text with
      | OK current => py_eq current (PDict desired)
      | Err _ => false
      end
  | _ => false
  end.

(** The current state equals the desired configuration in every compared
    block.  The desired access policy is the policy as it is compared: with
    the resource of its statements filled in. *)
Definition in_sync (env : environment) (p : params) (status : pydict)
    (arn : string) : bool :=
  block_equal status "ElasticsearchClusterConfig" (cluster_config p) &&
  block_equal status "EBSOptions" (ebs_options p) &&
  block_equal status "CognitoOptions" (cognito_options p) &&
  vpc_equal status p &&
  block_equal status "SnapshotOptions" (snapshot_options p) &&
  policy_equal env status (populated arn (access_policies p)).

(** The blocks that are compared whole, with the desired block of each. *)
Definition whole_blocks (p : params) : list (string * pydict) :=
  [ ("ElasticsearchClusterConfig", cluster_config p);
    ("EBSOptions", ebs_options p);
    ("CognitoOptions", cognito_options p);
    ("SnapshotOptions", snapshot_options p) ].

Definition is_update (c : api_call) : bool :=
  match c with update_elasticsearch_domain_config _ => true | _ => false end.

Definition is_create (c : api_call) : bool :=
  match c with create_elasticsearch_domain _ => true | _ => false end.

(** A write call: an update or a create. *)
Definition is_write (c : api_call) : bool := is_update c || is_create c.

Definition keyword_args_of (c : api_call) : pydict :=
  match c with
  | describe_elasticsearch_domain n => [("DomainName", PStr n)]
  | update_elasticsearch_domain_config k => k
  | create_elasticsearch_domain k => k
  end.

(** The calls an invocation with the parameters [p] can issue: a read of
    its domain, an update or a create with the keyword arguments built from
    [p] and some serialized policy, once the VPC guard has passed. *)
Definition call_of (p : params) (c : api_call) : Prop :=
  match c with
  | describe_elasticsearch_domain n => n = name p
  | update_elasticsearch_domain_config k =>
      exists s, with_vpc_options p (update_keyword_args p s) = OK k
  | create_elasticsearch_domain k =>
      exists s, with_vpc_options p (create_keyword_args p s) = OK k
  end.

(** The [changed] an invocation reports, when it reports. *)
Definition reported_changed (o : outcome) : option bool :=
  match o with
  | Exited (ExitJson c _) => Some c
  | _ => None
  end.

Definition reported_response (o : outcome) : pyval :=
  match o with
  | Exited (ExitJson _ response) => response
  | _ => PNone
  end.

(** The exit of [fail_json]. *)
Definition is_failure (s : sysexit) : Prop := exists msg, s = FailJson msg.

(** [vpc_subnets] is absent or empty. *)
Definition no_subnets (p : params) : bool :=
  match vpc_subnets p with
  | Some (_ :: _) => false
  | _ => true
  end.

(** The invocation [p] with other encryption-at-rest parameters. *)
Definition with_encryption (enabled : bool) (kms_key_id : option string)
    (p : params) : params :=
  {| name := name p;
     instance_type := instance_type p;
     instance_count := instance_count p;
     dedicated_master := dedicated_master p;
     zone_awareness := zone_awareness p;
     availability_zone_count := availability_zone_count p;
     dedicated_master_instance_type := dedicated_master_instance_type p;
     dedicated_master_instance_count := dedicated_master_instance_count p;
     ebs := ebs p;
     volume_type := volume_type p;
     volume_size := volume_size p;
     iops := iops p;
     warm_enabled := warm_enabled p;
     warm_type := warm_type p;
     warm_count := warm_count p;
     cold_storage_enabled := cold_storage_enabled p;
     access_policies := access_policies p;
     vpc_subnets := vpc_subnets p;
     vpc_security_groups := vpc_security_groups p;
     snapshot_hour := snapshot_hour p;
     engine_type := engine_type p;
     elasticsearch_version := elasticsearch_version p;
     encryption_at_rest_enabled := enabled;
     encryption_at_rest_kms_key_id := kms_key_id;
     cognito_enabled := cognito_enabled p;
     cognito_user_pool_id := cognito_user_pool_id p;
     cognito_identity_pool_id := cognito_identity_pool_id p;
     cognito_role_arn := cognito_role_arn p |}.

End Spec.

(* ================================================================== *)
(** ** Sample invocations *)
(* ================================================================== *)

Module Sample.
Import Py Exec Es Spec.

(** The invocation of the module's EXAMPLES block. *)
Definition policy : pydict :=
  [ ("Version", PStr "2012-10-17");
    ("Statement",
      PList [ PDict [ ("Effect", PStr "Allow");
                      ("Principal", PDict [("AWS", PStr "*")]);
                      ("Action", PStr "es:*") ] ]) ].

Definition my_cluster : params :=
  {| name := "my-cluster";
     instance_type := "m3.medium.elasticsearch";
     instance_count := 2;
     dedicated_master := true;
     zone_awareness := true;
     availability_zone_count := Some 2;
     dedicated_master_instance_type := Some "t2.micro.elasticsearch";
     dedicated_master_instance_count := Some 2;
     ebs := true;
     volume_type := "io1";
     volume_size := 10;
     iops := Some 1000;
     warm_enabled := true;
     warm_type := Some "ultrawarm1.medium.search";
     warm_count := Some 1;
     cold_storage_enabled := false;
     access_policies := policy;
     vpc_subnets := Some ["subnet-e537d64a"; "subnet-e537d64b"];
     vpc_security_groups := Some ["sg-dd2f13cb"; "sg-dd2f13cc"];
     snapshot_hour := 13;
     engine_type := "ElasticSearch";
     elasticsearch_version := "2.3";
     encryption_at_rest_enabled := false;
     encryption_at_rest_kms_key_id := None;
     cognito_enabled := false;
     cognito_user_pool_id := None;
     cognito_identity_pool_id := None;
     cognito_role_arn := None |}.

(** The same invocation without the two optional VPC parameters. *)
Definition no_vpc (p : params) : params :=
  {| name := name p;
     instance_type := instance_type p;
     instance_count := instance_count p;
     dedicated_master := dedicated_master p;
     zone_awareness := zone_awareness p;
     availability_zone_count := availability_zone_count p;
     dedicated_master_instance_type := dedicated_master_instance_type p;
     dedicated_master_instance_count := dedicated_master_instance_count p;
     ebs := ebs p;
     volume_type := volume_type p;
     volume_size := volume_size p;
     iops := iops p;
     warm_enabled := warm_enabled p;
     warm_type := warm_type p;
     warm_count := warm_count p;
     cold_storage_enabled := cold_storage_enabled p;
     access_policies := access_policies p;
     vpc_subnets := None;
     vpc_security_groups := None;
     snapshot_hour := snapshot_hour p;
     engine_type := engine_type p;
     elasticsearch_version := elasticsearch_version p;
     encryption_at_rest_enabled := encryption_at_rest_enabled p;
     encryption_at_rest_kms_key_id := encryption_at_rest_kms_key_id p;
     cognito_enabled := cognito_enabled p;
     cognito_user_pool_id := cognito_user_pool_id p;
     cognito_identity_pool_id := cognito_identity_pool_id p;
     cognito_role_arn := cognito_role_arn p |}.

(** The same invocation with another access policy. *)
Definition with_policy (d : pydict) (p : params) : params :=
  {| name := name p;
     instance_type := instance_type p;
     instance_count := instance_count p;
     dedicated_master := dedicated_master p;
     zone_awareness := zone_awareness p;
     availability_zone_count := availability_zone_count p;
     dedicated_master_instance_type := dedicated_master_instance_type p;
     dedicated_master_instance_count := dedicated_master_instance_count p;
     ebs := ebs p;
     volume_type := volume_type p;
     volume_size := volume_size p;
     iops := iops p;
     warm_enabled := warm_enabled p;
     warm_type := warm_type p;
     warm_count := warm_count p;
     cold_storage_enabled := cold_storage_enabled p;
     access_policies := d;
     vpc_subnets := vpc_subnets p;
     vpc_security_groups := vpc_security_groups p;
     snapshot_hour := snapshot_hour p;
     engine_type := engine_type p;
     elasticsearch_version := elasticsearch_version p;
     encryption_at_rest_enabled := encryption_at_rest_enabled p;
     encryption_at_rest_kms_key_id := encryption_at_rest_kms_key_id p;
     cognito_enabled := cognito_enabled p;
     cognito_user_pool_id := cognito_user_pool_id p;
     cognito_identity_pool_id := cognito_identity_pool_id p;
     cognito_role_arn := cognito_role_arn p |}.

Definition arn : string :=
  "arn:aws:es:eu-west-1:123456789012:domain/my-cluster".

(** The access policy as the provider stores it: every statement has its
    resource. *)
Definition stored_policy : pyval :=
  PDict
    [ ("Version", PStr "2012-10-17");
      ("Statement",
        PList [ PDict [ ("Effect", PStr "Allow");
                        ("Principal", PDict [("AWS", PStr "*")]);
                        ("Action", PStr "es:*");
                        ("Resource", PStr (arn ++ "/*")) ] ]) ].

(** A decoder that knows the documents of a table: it maps the text
    [json.dumps] gives for a document of the table back to the document, and
    refuses any other text. *)
Fixpoint loads_table (docs : list pyval) (s : string) : except pyval :=
  match docs with
  | [] => Err (ValueError "Expecting value: line 1 column 1 (char 0)")
  | v :: docs' =>
      match json_dumps v with
      | OK t => if String.eqb s t then OK v else loads_table docs' s
      | Err _ => loads_table docs' s
      end
  end.

Definition text_of (v : pyval) : string :=
  match json_dumps v with OK s => s | Err _ => "" end.

(** The status of a domain whose configuration is the one [p] asks for,
    inside or outside a VPC. *)
Definition status_of (p : params) (in_vpc : bool) : pydict :=
  let status :=
    [ ("ARN", PStr arn);
      ("DomainName", PStr (name p));
      ("ElasticsearchClusterConfig", PDict (cluster_config p));
      ("EBSOptions", PDict (ebs_options p));
      ("CognitoOptions", PDict (cognito_options p));
      ("SnapshotOptions", PDict (snapshot_options p));
      ("AccessPolicies", PStr (text_of stored_policy)) ] in
  if in_vpc
  then dict_set status "VPCOptions"
         (PDict (("VPCId", PStr "vpc-0a1b2c3d") :: vpc_options p))
  else status.

(** The same status with a larger EBS volume than the example asks for. *)
Definition larger_volume (status : pydict) : pydict :=
  dict_set status "EBSOptions"
    (PDict [ ("EBSEnabled", PBool true); ("VolumeType", PStr "io1");
             ("VolumeSize", PInt 20); ("Iops", PInt 1000) ]).

(** The same status with one more field in its EBS options than the example
    sets. *)
Definition one_more_field (status : pydict) : pydict :=
  dict_set status "EBSOptions"
    (PDict (ebs_options my_cluster ++ [("Throughput", PInt 125)])).

(** The SDK's name of the operation behind a call. *)
Definition operation_name (c : api_call) : string :=
  match c with
  | describe_elasticsearch_domain _ => "DescribeElasticsearchDomain"
  | update_elasticsearch_domain_config _ => "UpdateElasticsearchDomainConfig"
  | create_elasticsearch_domain _ => "CreateElasticsearchDomain"
  end.

(** A provider on which the domain exists with the given status; writes
    succeed and leave the status as it is. *)
Definition existing (status : pydict) : list api_call -> api_call -> except pyval :=
  fun _ c =>
    match c with
    | describe_elasticsearch_domain _ => OK (PDict [("DomainStatus", PDict status)])
    | update_elasticsearch_domain_config _ => OK (PDict [("DomainConfig", PDict [])])
    | create_elasticsearch_domain _ =>
        Err (ClientError "ResourceAlreadyExistsException"
               "Domain already exists" (operation_name c))
    end.

(** A provider on which the domain does not exist until it is created. *)
Definition missing (status : pydict) : list api_call -> api_call -> except pyval :=
  fun history c =>
    match c with
    | create_elasticsearch_domain _ => OK (PDict [("DomainStatus", PDict status)])
    | _ =>
        if existsb is_create history
        then existing status history c
        else Err (ClientError "ResourceNotFoundException"
                    "Domain not found: my-cluster" (operation_name c))
    end.

(** A provider that refuses every call. *)
Definition denying : list api_call -> api_call -> except pyval :=
  fun _ c =>
    Err (ClientError "AccessDeniedException" "User is not authorized"
           (operation_name c)).

Definition env_of (c : list api_call -> api_call -> except pyval) : environment :=
  {| HAS_BOTO := true; client := c; json_loads := loads_table [stored_policy] |}.

End Sample.

(* ================================================================== *)
(** ** The cases of an invocation *)
(* ================================================================== *)

Module Cases.
Import Py Exec Es Spec Sample.

(** *** Association lists that stand for dictionaries *)

(** No key occurs twice. *)
Fixpoint distinct (keys : list string) : bool :=
  match keys with
  | [] => true
  | k :: keys' => negb (existsb (String.eqb k) keys') && distinct keys'
  end.

(** A Python dictionary has each key once: the values in which every
    dictionary, at any depth, is listed without a repeated key. *)
Fixpoint well_formed (v : pyval) : bool :=
  match v with
  | PList l => forallb well_formed l
  | PDict d =>
      distinct (map fst d) && forallb (fun kv => well_formed (snd kv)) d
  | _ => true
  end.

(** Induction on values, with the hypothesis for the elements of a list and
    for the values of a dictionary. *)
Section NestedInduction.
Variable P : pyval -> Prop.
Hypothesis P_none : P PNone.
Hypothesis P_bool : forall b, P (PBool b).
Hypothesis P_int : forall z, P (PInt z).
Hypothesis P_str : forall s, P (PStr s).
Hypothesis P_object : forall a, P (PObject a).
Hypothesis P_list : forall l, Forall P l -> P (PList l).
Hypothesis P_dict : forall d, Forall (fun kv => P (snd kv)) d -> P (PDict d).

Fixpoint pyval_nested_ind (v : pyval) : P v :=
  match v with
  | PNone => P_none
  | PBool b => P_bool b
  | PInt z => P_int z
  | PStr s => P_str s
  | PObject a => P_object a
  | PList l =>
      P_list l
        ((fix elements (l : list pyval) : Forall P l :=
            match l with
            | [] => Forall_nil P
            | x :: l' => Forall_cons x (pyval_nested_ind x) (elements l')
            end) l)
  | PDict d =>
      P_dict d
        ((fix entries (d : list (string * pyval))
            : Forall (fun kv => P (snd kv)) d :=
            match d with
            | [] => Forall_nil _
            | (k, x) :: d' =>
                Forall_cons (k, x) (pyval_nested_ind x : P (snd (k, x)))
                  (entries d')
            end) d)
  end.
End NestedInduction.

(** The second half of [==] on dictionaries: every entry of [d1] is in [d2]
    with an equal value. *)
Definition entries_agree (d2 : pydict) (kv : string * pyval) : bool :=
  match dict_get d2 (fst kv) with
  | Some v' => py_eq (snd kv) v'
  | None => false
  end.

(** [==] on lists, element by element. *)
Fixpoint list_eq (l1 l2 : list pyval) : bool :=
  match l1, l2 with
  | [], [] => true
  | x :: l1', y :: l2' => py_eq x y && list_eq l1' l2'
  | _, _ => false
  end.

(** *** A status on which every comparison can be made *)

(** Lines 378-381 subscript the VPC options of the status and the desired
    ones with both keys. *)
Definition vpc_comparable (status : pydict) (p : params) : bool :=
  match dict_get status "VPCOptions" with
  | None => true
  | Some (PDict current) =>
      dict_mem current "SubnetIds" && dict_mem (vpc_options p) "SubnetIds" &&
      dict_mem current "SecurityGroupIds" &&
      dict_mem (vpc_options p) "SecurityGroupIds"
  | Some _ => false
  end.

(** Line 386 decodes the access policy of the status. *)
Definition policy_comparable (env : environment) (status : pydict) : bool :=
  match dict_get status "AccessPolicies" with
  | Some (PStr text) =>
      match json_loads env text with OK _ => true | Err _ => false end
  | _ => false
  end.

(** The status has every block that lines 368-388 subscript. *)
Definition comparable (env : environment) (p : params) (status : pydict)
  : bool :=
  dict_mem status "ElasticsearchClusterConfig" &&
  dict_mem status "EBSOptions" &&
  dict_mem status "CognitoOptions" &&
  vpc_comparable status p &&
  dict_mem status "SnapshotOptions" &&
  policy_comparable env status.

(** The blocks compared before the VPC options, in the order of lines
    368-375. *)
Definition first_blocks : list string :=
  ["ElasticsearchClusterConfig"; "EBSOptions"; "CognitoOptions"].

(** *** The keyword arguments of the writes *)

(** The serialized policy an update carries: the populated one. *)
Definition populated_text (arn : string) (p : params) : string :=
  json_text (PDict (populated arn (access_policies p))).

(** The keyword arguments of a write that has passed the VPC guard. *)
Definition in_vpc (p : params) (keyword_args : pydict) : pydict :=
  dict_set keyword_args "VPCOptions" (PDict (vpc_options p)).

(** [vpc_security_groups] is absent or empty. *)
Definition no_security_groups (p : params) : bool :=
  match vpc_security_groups p with
  | Some (_ :: _) => false
  | _ => true
  end.

(** The key of the desired VPC options that lines 378-381 would miss. *)
Definition missing_vpc_key (p : params) : option string :=
  if no_subnets p then Some "SubnetIds"
  else if no_security_groups p then Some "SecurityGroupIds"
  else None.

Definition is_client_error (e : pyexn) : bool :=
  match e with ClientError _ _ _ => true | _ => false end.

(** The status holds the very blocks the routine sends, and a policy text
    that decodes to the populated policy: what a provider shows that has
    stored an update of this invocation. *)
Definition stores (env : environment) (p : params) (status : pydict)
    (arn : string) : Prop :=
  dict_get status "ElasticsearchClusterConfig" = Some (PDict (cluster_config p))
  /\ dict_get status "EBSOptions" = Some (PDict (ebs_options p))
  /\ dict_get status "CognitoOptions" = Some (PDict (cognito_options p))
  /\ dict_get status "SnapshotOptions" = Some (PDict (snapshot_options p))
  /\ (dict_get status "VPCOptions" = None \/
      exists current subnets groups,
        dict_get status "VPCOptions" = Some (PDict current) /\
        dict_get current "SubnetIds" = Some (str_list subnets) /\
        dict_get (vpc_options p) "SubnetIds" = Some (str_list subnets) /\
        dict_get current "SecurityGroupIds" = Some (str_list groups) /\
        dict_get (vpc_options p) "SecurityGroupIds" = Some (str_list groups))
  /\ exists text,
       dict_get status "AccessPolicies" = Some (PStr text) /\
       json_loads env text = OK (PDict (populated arn (access_policies p))).

(** *** The shape of a call log *)

Definition at_most_one (kind : api_call -> bool) (l : list api_call) : Prop :=
  l = [] \/ exists c, kind c = true /\ l = [c].

(** A read first; then at most one update, at most one create, at most one
    final read, in this order. *)
Definition log_shape (p : params) (log : list api_call) : Prop :=
  log = [] \/
  exists updates creates reads,
    log = (describe p :: updates ++ creates ++ reads)%list /\
    at_most_one is_update updates /\
    at_most_one is_create creates /\
    (reads = [] \/ reads = [describe p]).

(** *** Providers for the samples *)

(** A provider that answers its calls from a script, whatever they are. *)
Definition scripted (answers : list (except pyval))
  : list api_call -> api_call -> except pyval :=
  fun history _ =>
    nth (length history) answers (Err (BotoCoreError "no answer left")).


Definition describing (status : pydict) : except pyval :=
  OK (PDict [("DomainStatus", PDict status)]).





Definition not_found : except pyval :=
  Err (ClientError "ResourceNotFoundException" "Domain not found: my-cluster"
         "DescribeElasticsearchDomain").

End Cases.

(* ================================================================== *)
(** ** Facts about values *)
(* ================================================================== *)

Module ValueFacts.
Import Py.

Lemma dict_get_set_same {A} (d : list (string * A)) k v :
  dict_get (dict_set d k v) k = Some v.
Proof.
  induction d as [|[k' v'] d IH]; simpl.
  - now rewrite String.eqb_refl.
  - destruct (String.eqb k k') eqn:E; simpl; rewrite E; auto.
Qed.

Lemma dict_get_set_other {A} (d : list (string * A)) k k' v :
  k <> k' -> dict_get (dict_set d k v) k' = dict_get d k'.
Proof.
  intros N. induction d as [|[k0 v0] d IH]; simpl.
  - destruct (String.eqb k' k) eqn:E; auto.
    apply String.eqb_eq in E. congruence.
  - destruct (String.eqb k k0) eqn:E; simpl.
    + apply String.eqb_eq in E. subst k0.
      destruct (String.eqb k' k) eqn:E'; auto.
      apply String.eqb_eq in E'. congruence.
    + now rewrite IH.
Qed.

Lemma dict_get_In {A} (d : list (string * A)) k v :
  dict_get d k = Some v -> In (k, v) d.
Proof.
  induction d as [|[k' v'] d IH]; simpl; [discriminate|].
  destruct (String.eqb k k') eqn:E.
  - apply String.eqb_eq in E. intros [= ->]. subst. now left.
  - intros H. right. auto.
Qed.

(** A dictionary with a key that the other one lacks is not equal to it. *)
Lemma py_eq_extra_key (current desired : pydict) k v :
  dict_get current k = Some v ->
  dict_get desired k = None ->
  py_eq (PDict current) (PDict desired) = false.
Proof.
  intros Hc Hd. simpl. apply andb_false_iff. right.
  induction current as [|[k' v'] d IH]; simpl in *; [discriminate|].
  destruct (String.eqb k k') eqn:E.
  - apply String.eqb_eq in E. subst k'. now rewrite Hd.
  - rewrite (IH Hc). apply andb_false_r.
Qed.

Lemma serializable_dict (d : pydict) :
  serializable (PDict d) = forallb (fun kv => serializable (snd kv)) d.
Proof. reflexivity. Qed.

Lemma serializable_list (l : list pyval) :
  serializable (PList l) = forallb serializable l.
Proof. reflexivity. Qed.

Lemma serializable_dict_set (d : pydict) k v :
  serializable (PDict d) = true ->
  serializable v = true ->
  serializable (PDict (dict_set d k v)) = true.
Proof.
  rewrite !serializable_dict. intros Hd Hv.
  induction d as [|[k' v'] d IH]; simpl in *.
  - now rewrite Hv.
  - apply andb_true_iff in Hd. destruct Hd as [H1 H2].
    destruct (String.eqb k k'); simpl.
    + now rewrite Hv, H2.
    + now rewrite H1, IH.
Qed.

Lemma serializable_dict_get (d : pydict) k v :
  serializable (PDict d) = true ->
  dict_get d k = Some v ->
  serializable v = true.
Proof.
  rewrite serializable_dict. intros Hd Hg.
  apply dict_get_In in Hg.
  rewrite forallb_forall in Hd. exact (Hd _ Hg).
Qed.

Lemma dict_set_same {A} (d : list (string * A)) k v :
  dict_get d k = Some v -> dict_set d k v = d.
Proof.
  induction d as [|[k' v'] d IH]; simpl; [discriminate|].
  destruct (String.eqb k k') eqn:E.
  - now intros [= ->].
  - intros H. now rewrite IH.
Qed.

Lemma json_dumps_OK v :
  serializable v = true -> json_dumps v = OK (json_text v).
Proof. unfold json_dumps. now intros ->. Qed.

Lemma json_dumps_Err v e :
  json_dumps v = Err e -> serializable v = false.
Proof. unfold json_dumps. destruct (serializable v); [discriminate | auto]. Qed.

(** The operators on samples. *)

Example py_eq_ignores_key_order :
  py_eq (PDict [("a", PInt 1); ("b", PStr "x")])
        (PDict [("b", PStr "x"); ("a", PInt 1)]) = true.
Proof. reflexivity. Qed.

Example py_eq_true_is_one : py_eq (PBool true) (PInt 1) = true.
Proof. reflexivity. Qed.

Example py_eq_list_order_matters :
  py_eq (PList [PStr "sg-1"; PStr "sg-2"]) (PList [PStr "sg-2"; PStr "sg-1"])
  = false.
Proof. reflexivity. Qed.

Example dict_set_keeps_place :
  dict_set [("a", 1); ("b", 2)] "a" 3 = [("a", 3); ("b", 2)] /\
  dict_set [("a", 1); ("b", 2)] "c" 3 = [("a", 1); ("b", 2); ("c", 3)].
Proof. split; reflexivity. Qed.

Example json_dumps_sample :
  json_dumps (PDict [("Effect", PStr "Allow"); ("n", PList [PInt (-3); PNone])])
  = OK ("{" ++ dquote ++ "Effect" ++ dquote ++ ": " ++ dquote ++ "Allow"
            ++ dquote ++ ", " ++ dquote ++ "n" ++ dquote ++ ": [-3, null]}").
Proof. reflexivity. Qed.

Example json_dumps_object :
  json_dumps (PDict [("Effect", PObject 1)]) =
  Err (TypeError "Object of type object is not JSON serializable").
Proof. reflexivity. Qed.

Example py_str_sample :
  py_str (PStr "arn:aws:es") = "arn:aws:es" /\
  py_str (PList [PStr "a"; PInt 2; PBool true]) = "['a', 2, True]".
Proof. split; reflexivity. Qed.

Example py_contains_substring :
  py_contains "Resource" (PStr "NotResource") = OK true /\
  py_contains "Resource" (PStr "Effect") = OK false.
Proof. split; reflexivity. Qed.

End ValueFacts.

(* ================================================================== *)
(** ** Facts about statements *)
(* ================================================================== *)

Module ExecFacts.
Import Py Exec.
Local Open Scope exec_scope.

Lemma bind_Val_inv {A B} (m : M A) (k : A -> M B) st b st2 :
  bind m k st = (Val b, st2) ->
  exists a st1, m st = (Val a, st1) /\ k a st1 = (Val b, st2).
Proof.
  unfold bind. destruct (m st) as [[a|e|s] st1]; try discriminate.
  intros H. now exists a, st1.
Qed.

Lemma bind_Val {A B} (m : M A) (k : A -> M B) st a st1 :
  m st = (Val a, st1) -> bind m k st = k a st1.
Proof. unfold bind. now intros ->. Qed.

Lemma bind_Raise {A B} (m : M A) (k : A -> M B) st e st1 :
  m st = (Raise e, st1) -> bind m k st = (Raise e, st1).
Proof. unfold bind. now intros ->. Qed.

Lemma lift_Val_inv {A} (x : except A) st a st1 :
  lift x st = (Val a, st1) -> x = OK a /\ st1 = st.
Proof. destruct x; simpl; unfold ret, raise; intros [= ]; subst; auto. Qed.

(** *** Relations between the locals before and after a statement *)

Section Frame.
Variable R : progress.

Lemma frame_ret {A} (a : A) : frame R (ret a).
Proof. intros st. apply rel_refl. Qed.

Lemma frame_raise {A} e : frame R (@raise A e).
Proof. intros st. apply rel_refl. Qed.

Lemma frame_lift {A} (x : except A) : frame R (lift x).
Proof. destruct x; [apply frame_ret | apply frame_raise]. Qed.

Lemma frame_exit_json {A} c r : frame R (@exit_json A c r).
Proof. intros st. apply rel_refl. Qed.

Lemma frame_fail_json {A} msg : frame R (@fail_json A msg).
Proof. intros st. apply rel_refl. Qed.

Lemma frame_get_changed : frame R get_changed.
Proof. intros st. apply rel_refl. Qed.

Lemma frame_get_pdoc : frame R get_pdoc.
Proof. intros st. apply rel_refl. Qed.

Lemma frame_bind {A B} (m : M A) (k : A -> M B) :
  frame R m -> (forall a, frame R (k a)) -> frame R (bind m k).
Proof.
  intros Hm Hk st. unfold bind. specialize (Hm st).
  destruct (m st) as [[a|e|s] st1]; simpl in *; auto.
  eapply rel_trans; [exact Hm | apply Hk].
Qed.

Lemma frame_when c (m : M unit) : frame R m -> frame R (when c m).
Proof. destruct c; simpl; auto using frame_ret. Qed.

Lemma frame_if {A} (c : bool) (m1 m2 : M A) :
  frame R m1 -> frame R m2 -> frame R (if c then m1 else m2).
Proof. now destruct c. Qed.

Lemma frame_try {A} (body : M A) handler :
  frame R body -> (forall c m, frame R (handler c m)) ->
  frame R (try_except_ClientError body handler).
Proof.
  intros Hb Hh st. unfold try_except_ClientError. specialize (Hb st).
  destruct (body st) as [[a|e|s] st1]; simpl in *; auto.
  destruct e; simpl; auto.
  eapply rel_trans; [exact Hb | apply Hh].
Qed.
End Frame.

Lemma frame_call_grow env c : frame calls_grow (call env c).
Proof.
  intros st. exists [c]. unfold call.
  now destruct (client env (calls st) c).
Qed.

Lemma same_calls_grow a b : same_calls a b -> calls_grow a b.
Proof. simpl. intros H. exists []. now rewrite app_nil_r. Qed.

Lemma frame_call_all (ok : api_call -> Prop) env c :
  ok c -> frame (calls_all ok) (call env c).
Proof.
  intros Hc st H. unfold call.
  destruct (client env (calls st) c); simpl;
    apply Forall_app; split; auto.
Qed.

Lemma frame_call_changed env c : frame changed_stays (call env c).
Proof.
  intros st H. unfold call. now destruct (client env (calls st) c).
Qed.

(** *** How a statement can exit *)

Section Exits.
Variable Q : sysexit -> Prop.

Lemma exits_ret {A} (a : A) : exits Q (ret a).
Proof. intros st s; discriminate. Qed.

Lemma exits_lift {A} (x : except A) : exits Q (lift x).
Proof. destruct x; intros st s; discriminate. Qed.

Lemma exits_call env c : exits Q (call env c).
Proof.
  intros st s. unfold call. destruct (client env (calls st) c); discriminate.
Qed.

Lemma exits_bind {A B} (m : M A) (k : A -> M B) :
  exits Q m -> (forall a, exits Q (k a)) -> exits Q (bind m k).
Proof.
  intros Hm Hk st s. unfold bind. specialize (Hm st).
  destruct (m st) as [[a|e|s'] st1] eqn:E; simpl in *.
  - apply Hk.
  - discriminate.
  - intros [= <-]. now apply Hm.
Qed.

Lemma exits_when c (m : M unit) : exits Q m -> exits Q (when c m).
Proof. destruct c; simpl; auto using exits_ret. Qed.

Lemma exits_try {A} (body : M A) handler :
  exits Q body -> (forall c m, exits Q (handler c m)) ->
  exits Q (try_except_ClientError body handler).
Proof.
  intros Hb Hh st s. unfold try_except_ClientError. specialize (Hb st).
  destruct (body st) as [[a|e|s'] st1] eqn:E; simpl in *; auto.
  destruct e; simpl; auto. apply Hh.
Qed.
End Exits.

End ExecFacts.

(* ================================================================== *)
(** ** Facts about the routine *)
(* ================================================================== *)

Module EsFacts.
Import Py Exec Es Spec ValueFacts ExecFacts.
Local Open Scope exec_scope.

(** *** The loop over the statements *)

Lemma populate_serializable arn statement :
  serializable statement = true -> serializable (populate arn statement) = true.
Proof.
  destruct statement; simpl; auto.
  destruct (dict_mem d "Resource"); auto.
  intros H. now apply serializable_dict_set.
Qed.

(** On statement objects the loop raises nothing, touches no local but
    [pdoc], and leaves every statement populated. *)
Lemma normalize_statements_document status arn policy rest :
  dict_get status "ARN" = Some (PStr arn) ->
  serializable (PDict policy) = true ->
  forall visited st,
    forallb serializable visited = true ->
    forallb serializable rest = true ->
    forallb is_dict rest = true ->
    exists s,
      normalize_statements (PDict status) policy visited rest st =
      (Val (visited ++ map (populate arn) rest)%list,
       mkLocals (changed st) s (calls st)).
Proof.
  intros Harn Hpol.
  induction rest as [|statement rest IH]; intros visited st Hv Hr Hd.
  - exists (pdoc st). simpl. rewrite app_nil_r. now destruct st.
  - simpl in Hr, Hd.
    apply andb_true_iff in Hr. destruct Hr as [Hs Hr].
    apply andb_true_iff in Hd. destruct Hd as [Hsd Hd].
    destruct statement as [| | | | |d|]; try discriminate.
    cbn [normalize_statements].
    rewrite (bind_Val _ _ st (dict_mem d "Resource") st) by reflexivity.
    cbn [map populate].
    destruct (dict_mem d "Resource") eqn:Hm.
    + destruct (IH (visited ++ [PDict d])%list st) as [s Hs']; auto.
      { rewrite forallb_app, Hv. cbn [forallb]. now rewrite Hs. }
      exists s. rewrite Hs'. now rewrite <- app_assoc.
    + set (statement' := PDict (dict_set d "Resource" (PStr (arn ++ "/*")))).
      assert (Hs2 : serializable statement' = true)
        by (apply serializable_dict_set; auto).
      rewrite (bind_Val _ _ st (PStr arn) st)
        by (unfold py_getitem; now rewrite Harn).
      rewrite (bind_Val _ _ st statement' st) by reflexivity.
      set (policy' := PDict (dict_set policy "Statement"
                               (PList (visited ++ statement' :: rest)))).
      assert (Hp2 : serializable policy' = true).
      { apply serializable_dict_set; auto.
        rewrite serializable_list, forallb_app, Hv. cbn [forallb].
        now rewrite Hs2, Hr. }
      rewrite (bind_Val _ _ st (json_text policy') st)
        by (now rewrite (json_dumps_OK _ Hp2)).
      rewrite (bind_Val _ _ st tt (mkLocals (changed st) (json_text policy')
                                     (calls st))) by reflexivity.
      destruct (IH (visited ++ [statement'])%list
                  (mkLocals (changed st) (json_text policy') (calls st)))
        as [s Hs']; auto.
      { rewrite forallb_app, Hv. cbn [forallb]. now rewrite Hs2. }
      exists s. rewrite Hs'. now rewrite <- app_assoc.
Qed.

(** The policy that is compared is the populated policy. *)
Lemma normalize_policy_document status arn policy st :
  dict_get status "ARN" = Some (PStr arn) ->
  serializable (PDict policy) = true ->
  policy_document policy = true ->
  exists s,
    normalize_policy (PDict status) policy st =
    (Val (populated arn policy), mkLocals (changed st) s (calls st)).
Proof.
  intros Harn Hpol Hdoc. unfold policy_document in Hdoc. unfold populated.
  destruct (dict_get policy "Statement") as [v|] eqn:Hst; [|discriminate].
  destruct v as [| | | |statements| |]; try discriminate.
  unfold normalize_policy.
  rewrite (bind_Val _ _ st (PList statements) st)
    by (unfold py_getitem; now rewrite Hst).
  rewrite (bind_Val _ _ st statements st) by reflexivity.
  destruct (normalize_statements_document status arn policy statements
              Harn Hpol [] st) as [s Hs]; auto.
  { pose proof (serializable_dict_get _ _ _ Hpol Hst) as H.
    now rewrite serializable_list in H. }
  exists s. rewrite (bind_Val _ _ _ _ _ Hs). reflexivity.
Qed.


(** *** The comparisons *)

Lemma compare_block_run status key desired st :
  compare_block status key desired st =
  match py_getitem status key with
  | OK current =>
      (Val tt, if py_ne current (PDict desired)
               then mkLocals true (pdoc st) (calls st) else st)
  | Err e => (Raise e, st)
  end.
Proof.
  unfold compare_block, bind, lift.
  destruct (py_getitem status key); simpl; auto.
  now destruct (py_ne a (PDict desired)).
Qed.

Lemma compare_block_equal status key desired st :
  block_equal status key desired = true ->
  compare_block (PDict status) key desired st = (Val tt, st).
Proof.
  unfold block_equal. intros H. rewrite compare_block_run. unfold py_getitem.
  destruct (dict_get status key); [|discriminate].
  unfold py_ne. now rewrite H.
Qed.

Lemma compare_vpc_field_equal status current p key st :
  dict_get status "VPCOptions" = Some (PDict current) ->
  field_equal current (vpc_options p) key = true ->
  compare_vpc_field (PDict status) p key st = (Val tt, st).
Proof.
  unfold field_equal. intros Hv H.
  destruct (dict_get current key) as [x|] eqn:Hx; [|discriminate].
  destruct (dict_get (vpc_options p) key) as [y|] eqn:Hy; [|discriminate].
  unfold compare_vpc_field.
  rewrite (bind_Val _ _ st (PDict current) st)
    by (unfold py_getitem; now rewrite Hv).
  rewrite (bind_Val _ _ st x st) by (unfold py_getitem; now rewrite Hx).
  rewrite (bind_Val _ _ st y st) by (unfold py_getitem; now rewrite Hy).
  unfold py_ne. now rewrite H.
Qed.

Lemma compare_vpc_equal status p st :
  vpc_equal status p = true ->
  compare_vpc (PDict status) p st = (Val tt, st).
Proof.
  unfold vpc_equal. intros H. unfold compare_vpc.
  rewrite (bind_Val _ _ st (dict_mem status "VPCOptions") st) by reflexivity.
  unfold dict_mem.
  destruct (dict_get status "VPCOptions") as [v|] eqn:Hv; [|reflexivity].
  destruct v as [| | | | |current|]; try discriminate.
  apply andb_true_iff in H. destruct H as [H1 H2].
  cbn [when].
  rewrite (bind_Val _ _ st tt st)
    by (now apply compare_vpc_field_equal with (current := current)).
  now apply compare_vpc_field_equal with (current := current).
Qed.

Lemma compare_policy_equal env status desired st :
  policy_equal env status desired = true ->
  compare_policy env (PDict status) desired st = (Val tt, st).
Proof.
  unfold policy_equal. intros H.
  destruct (dict_get status "AccessPolicies") as [v|] eqn:Hv; [|discriminate].
  destruct v as [| | |text| | |]; try discriminate.
  destruct (json_loads env text) as [current|] eqn:Hl; [|discriminate].
  unfold compare_policy.
  rewrite (bind_Val _ _ st (PStr text) st)
    by (unfold py_getitem; now rewrite Hv).
  rewrite (bind_Val _ _ st current st) by (simpl; now rewrite Hl).
  unfold py_ne. now rewrite H.
Qed.

(** Of the VPC options only the subnets and the security groups are
    looked at: another field of the current options changes nothing. *)
Lemma compare_vpc_field_other status vpc p key k v st :
  dict_get status "VPCOptions" = Some (PDict vpc) ->
  k <> key ->
  compare_vpc_field
    (PDict (dict_set status "VPCOptions" (PDict (dict_set vpc k v)))) p key st
  = compare_vpc_field (PDict status) p key st.
Proof.
  intros Hv Hk. unfold compare_vpc_field, bind, lift.
  unfold py_getitem at 1 4. rewrite dict_get_set_same, Hv. cbn [ret].
  unfold py_getitem at 1 3. now rewrite (dict_get_set_other _ _ _ _ Hk).
Qed.

Lemma compare_vpc_other status vpc p k v st :
  dict_get status "VPCOptions" = Some (PDict vpc) ->
  k <> "SubnetIds" ->
  k <> "SecurityGroupIds" ->
  compare_vpc
    (PDict (dict_set status "VPCOptions" (PDict (dict_set vpc k v)))) p st
  = compare_vpc (PDict status) p st.
Proof.
  intros Hv H1 H2. unfold compare_vpc, bind, lift, py_contains, dict_mem.
  rewrite dict_get_set_same, Hv. cbn [ret when]. unfold bind.
  rewrite (compare_vpc_field_other _ _ _ _ _ _ _ Hv H1).
  destruct (compare_vpc_field (PDict status) p "SubnetIds" st)
    as [[[]|e|s] st1]; auto.
  apply (compare_vpc_field_other _ _ _ _ _ _ _ Hv H2).
Qed.

(** In sync, the comparisons assign nothing. *)
Lemma detect_changes_in_sync env p status arn st :
  in_sync env p status arn = true ->
  detect_changes env p (PDict status) (populated arn (access_policies p)) st
  = (Val tt, st).
Proof.
  unfold in_sync. intros H.
  repeat (apply andb_true_iff in H; destruct H as [H ?]).
  unfold detect_changes.
  repeat (rewrite (bind_Val _ _ st tt st);
          [| first [ now apply compare_block_equal
                   | now apply compare_vpc_equal ] ]).
  now apply compare_policy_equal.
Qed.

(** The comparisons assign nothing but [changed], and only [True]. *)
Lemma set_changed_only_changed : frame only_changed (set_changed true).
Proof. intros st. simpl. auto. Qed.

Lemma compare_block_frame status key desired :
  frame only_changed (compare_block status key desired).
Proof.
  unfold compare_block.
  apply frame_bind; [apply frame_lift | intros].
  apply frame_when, set_changed_only_changed.
Qed.

Lemma compare_vpc_field_frame status p key :
  frame only_changed (compare_vpc_field status p key).
Proof.
  unfold compare_vpc_field.
  repeat (apply frame_bind; [apply frame_lift | intros]).
  apply frame_when, set_changed_only_changed.
Qed.

Lemma compare_vpc_frame status p : frame only_changed (compare_vpc status p).
Proof.
  unfold compare_vpc.
  apply frame_bind; [apply frame_lift | intros].
  apply frame_when, frame_bind; intros; apply compare_vpc_field_frame.
Qed.

Lemma compare_policy_frame env status policy_dict :
  frame only_changed (compare_policy env status policy_dict).
Proof.
  unfold compare_policy.
  repeat (apply frame_bind; [apply frame_lift | intros]).
  apply frame_when, set_changed_only_changed.
Qed.

Lemma detect_changes_frame env p status policy_dict :
  frame only_changed (detect_changes env p status policy_dict).
Proof.
  unfold detect_changes.
  repeat (apply frame_bind;
          [first [apply compare_block_frame | apply compare_vpc_frame]
          | intros]).
  apply compare_policy_frame.
Qed.

(** The loop assigns nothing but [pdoc]. *)
Lemma normalize_statements_frame status policy rest :
  forall visited,
    frame only_pdoc (normalize_statements status policy visited rest).
Proof.
  induction rest as [|statement rest IH]; intros visited.
  - apply frame_ret.
  - cbn [normalize_statements].
    apply frame_bind; [apply frame_lift | intros has].
    apply frame_if; [apply IH|].
    repeat (apply frame_bind; [apply frame_lift | intros]).
    apply frame_bind; [|intros; apply IH].
    intros st. simpl. auto.
Qed.

Lemma normalize_policy_frame status policy :
  frame only_pdoc (normalize_policy status policy).
Proof.
  unfold normalize_policy.
  repeat (apply frame_bind; [apply frame_lift | intros]).
  apply frame_bind; [apply normalize_statements_frame | intros].
  apply frame_ret.
Qed.

(** *** Runs of [main] *)

Lemma main_run env p :
  main env p = (outcome_of (fst (main_body env p entry)),
                calls (snd (main_body env p entry))).
Proof. unfold main. now destruct (main_body env p entry). Qed.

Lemma main_body_reads env p r :
  reads env p r ->
  main_body env p entry = (reconcile env p ;; report env p) (at_try p).
Proof.
  intros (Hb & Hs & _). unfold main_body. rewrite Hb. cbn [negb].
  now rewrite (json_dumps_OK _ Hs).
Qed.

Lemma main_body_read_fails env p code message :
  read_fails env p code message ->
  main_body env p entry = (reconcile env p ;; report env p) (at_try p).
Proof. intros [op Hr]. exact (main_body_reads _ _ _ Hr). Qed.

Lemma first_read env p r :
  reads env p r ->
  call env (describe p) (at_try p) =
  (match r with OK response => Val response | Err e => Raise e end,
   after_read p (json_text (PDict (access_policies p)))).
Proof.
  intros (_ & _ & Hc). unfold call, at_try. cbn [calls]. rewrite Hc.
  now destruct r.
Qed.

Lemma try_body_existing env p status arn :
  existing_domain env p status arn ->
  try_body env p (at_try p) =
  (policy_dict <- normalize_policy (PDict status) (access_policies p) ;;
   detect_changes env p (PDict status) policy_dict ;;
   update_if_changed env p)
    (after_read p (json_text (PDict (access_policies p)))).
Proof.
  intros (response & Hr & Hs & _). unfold try_body.
  rewrite (bind_Val _ _ _ _ _ (first_read _ _ _ Hr)).
  now rewrite (bind_Val _ _ _ (PDict status) _)
    by (rewrite Hs; reflexivity).
Qed.

Lemma existing_domain_serializable env p status arn :
  existing_domain env p status arn ->
  serializable (PDict (access_policies p)) = true.
Proof. now intros (response & (_ & H & _) & _). Qed.

Lemma existing_domain_arn env p status arn :
  existing_domain env p status arn -> dict_get status "ARN" = Some (PStr arn).
Proof. now intros (response & _ & _ & H). Qed.

(** In sync, the invocation reads twice and reports no change. *)
Lemma in_sync_run env p status arn final :
  existing_domain env p status arn ->
  policy_document (access_policies p) = true ->
  in_sync env p status arn = true ->
  client env [describe p] (describe p) = OK final ->
  main env p = (Exited (ExitJson false final), [describe p; describe p]).
Proof.
  intros Hex Hdoc Hsync Hfinal.
  pose proof Hex as (response & Hr & _).
  rewrite main_run, (main_body_reads _ _ _ Hr).
  destruct (normalize_policy_document status arn (access_policies p)
              (after_read p (json_text (PDict (access_policies p))))
              (existing_domain_arn _ _ _ _ Hex)
              (existing_domain_serializable _ _ _ _ Hex) Hdoc) as [s Hn].
  assert (Ht : reconcile env p (at_try p) = (Val tt, after_read p s)).
  { unfold reconcile, try_except_ClientError.
    rewrite (try_body_existing _ _ _ _ Hex).
    rewrite (bind_Val _ _ _ _ _ Hn).
    rewrite (bind_Val _ _ _ tt _ (detect_changes_in_sync _ _ _ _ _ Hsync)).
    reflexivity. }
  rewrite (bind_Val _ _ _ _ _ Ht).
  unfold report, bind, call, after_read. cbn [calls].
  fold (describe p). rewrite Hfinal. reflexivity.
Qed.

(** *** The VPC guard without subnets *)

Lemma vpc_options_no_subnets p :
  no_subnets p = true -> dict_get (vpc_options p) "SubnetIds" = None.
Proof.
  unfold no_subnets, vpc_options. intros H.
  destruct (vpc_subnets p) as [[|x l]|]; try discriminate;
    destruct (vpc_security_groups p) as [[|y l']|]; reflexivity.
Qed.

Lemma with_vpc_options_no_subnets p keyword_args :
  no_subnets p = true ->
  with_vpc_options p keyword_args = Err (KeyError "SubnetIds").
Proof.
  intros H. unfold with_vpc_options, py_getitem.
  now rewrite (vpc_options_no_subnets _ H).
Qed.

Lemma update_if_changed_no_subnets env p st :
  no_subnets p = true ->
  changed st = true ->
  update_if_changed env p st = (Raise (KeyError "SubnetIds"), st).
Proof.
  intros H Hc. unfold update_if_changed, bind, get_changed, get_pdoc.
  rewrite Hc. cbn [when]. unfold bind.
  now rewrite (with_vpc_options_no_subnets _ _ H).
Qed.

Lemma except_ClientError_no_subnets env p message st :
  no_subnets p = true ->
  except_ClientError env p "ResourceNotFoundException" message st =
  (Raise (KeyError "SubnetIds"), mkLocals true (pdoc st) (calls st)).
Proof.
  intros H. unfold except_ClientError, bind, set_changed, get_pdoc.
  cbn [String.eqb Ascii.eqb Bool.eqb pdoc]. 
  now rewrite (with_vpc_options_no_subnets _ _ H).
Qed.

(** *** The calls of an invocation *)

Lemma frame_weaken (R R' : progress) {A} (m : M A) :
  (forall a b, R a b -> R' a b) -> frame R m -> frame R' m.
Proof. intros H Hm st. apply H, Hm. Qed.

Lemma only_pdoc_calls ok a b : only_pdoc a b -> calls_all ok a b.
Proof. simpl. intros [_ H]. now rewrite H. Qed.

Lemma only_changed_calls ok a b : only_changed a b -> calls_all ok a b.
Proof. simpl. intros (_ & H & _). now rewrite H. Qed.

Lemma update_if_changed_calls env p :
  frame (calls_all (call_of p)) (update_if_changed env p).
Proof.
  intros st H. unfold update_if_changed, bind, get_changed, get_pdoc, when.
  destruct (changed st); auto. unfold bind, lift.
  destruct (with_vpc_options p (update_keyword_args p (pdoc st))) eqn:E;
    simpl; auto.
  assert (Hc : call_of p (update_elasticsearch_domain_config a))
    by (now exists (pdoc st)).
  pose proof (frame_call_all (call_of p) env _ Hc st H) as F. simpl in F.
  now destruct (call env (update_elasticsearch_domain_config a) st)
    as [[r|e|s] st1].
Qed.

Lemma except_ClientError_calls env p code message :
  frame (calls_all (call_of p)) (except_ClientError env p code message).
Proof.
  intros st H. unfold except_ClientError, bind, set_changed, get_pdoc.
  destruct (String.eqb code "ResourceNotFoundException"); auto.
  unfold lift. cbn [pdoc].
  destruct (with_vpc_options p (create_keyword_args p (pdoc st))) eqn:E;
    simpl; auto.
  assert (Hc : call_of p (create_elasticsearch_domain a))
    by (now exists (pdoc st)).
  pose proof (frame_call_all (call_of p) env _ Hc
                (mkLocals true (pdoc st) (calls st)) H) as F. simpl in F.
  now destruct (call env (create_elasticsearch_domain a)
                  (mkLocals true (pdoc st) (calls st))) as [[r|e|s] st1].
Qed.

Lemma try_body_calls env p : frame (calls_all (call_of p)) (try_body env p).
Proof.
  unfold try_body.
  apply frame_bind; [now apply frame_call_all | intros response].
  apply frame_bind; [apply frame_lift | intros status].
  apply frame_bind; [| intros policy_dict].
  { eapply frame_weaken;
      [apply only_pdoc_calls | apply normalize_policy_frame]. }
  apply frame_bind; [| intros _; apply update_if_changed_calls].
  eapply frame_weaken;
    [apply only_changed_calls | apply detect_changes_frame].
Qed.

Lemma report_calls env p : frame (calls_all (call_of p)) (report env p).
Proof.
  unfold report.
  apply frame_bind; [now apply frame_call_all | intros response].
  apply frame_bind; [apply frame_get_changed | intros c].
  apply frame_exit_json.
Qed.

Lemma main_body_calls env p : frame (calls_all (call_of p)) (main_body env p).
Proof.
  unfold main_body.
  apply frame_if; [apply frame_fail_json|].
  apply frame_bind; [now intros st H | intros _].
  apply frame_bind; [| intros _].
  { destruct (json_dumps (PDict (access_policies p)));
      [now intros st H | apply frame_fail_json]. }
  apply frame_bind; [| intros _; apply report_calls].
  apply frame_try; [apply try_body_calls | apply except_ClientError_calls].
Qed.

(** Every call of an invocation is one of [call_of]. *)
Lemma main_calls env p : Forall (call_of p) (snd (main env p)).
Proof.
  rewrite main_run. cbn [snd].
  now apply (main_body_calls env p entry).
Qed.

(** What passes the VPC guard is the keyword arguments, with or without the
    VPC options. *)
Lemma with_vpc_options_OK p keyword_args k :
  with_vpc_options p keyword_args = OK k ->
  k = keyword_args \/
  k = dict_set keyword_args "VPCOptions" (PDict (vpc_options p)).
Proof.
  unfold with_vpc_options.
  destruct (py_getitem (PDict (vpc_options p)) "SubnetIds") as [a|];
    [|discriminate].
  destruct (py_truthy a); [intros [= <-]; auto|].
  destruct (py_getitem (PDict (vpc_options p)) "SecurityGroupIds") as [b|];
    [|discriminate].
  destruct (py_truthy b); intros [= <-]; auto.
Qed.

(** *** The exits of an invocation *)

Ltac no_exit := intros ? ?; discriminate.

Lemma exits_weaken (Q Q' : sysexit -> Prop) {A} (m : M A) :
  (forall s, Q s -> Q' s) -> exits Q m -> exits Q' m.
Proof. intros H Hm st s E. eapply H, Hm, E. Qed.

Lemma normalize_statements_exits Q status policy rest :
  forall visited, exits Q (normalize_statements status policy visited rest).
Proof.
  induction rest as [|statement rest IH]; intros visited.
  - apply exits_ret.
  - cbn [normalize_statements].
    apply exits_bind; [apply exits_lift | intros has].
    destruct has; [apply IH|].
    repeat (apply exits_bind; [apply exits_lift | intros]).
    apply exits_bind; [no_exit | intros; apply IH].
Qed.

Lemma normalize_policy_exits Q status policy :
  exits Q (normalize_policy status policy).
Proof.
  unfold normalize_policy.
  repeat (apply exits_bind; [apply exits_lift | intros]).
  apply exits_bind; [apply normalize_statements_exits | intros].
  apply exits_ret.
Qed.

Lemma compare_block_exits Q status key desired :
  exits Q (compare_block status key desired).
Proof.
  unfold compare_block.
  apply exits_bind; [apply exits_lift | intros]. apply exits_when. no_exit.
Qed.

Lemma compare_vpc_field_exits Q status p key :
  exits Q (compare_vpc_field status p key).
Proof.
  unfold compare_vpc_field.
  repeat (apply exits_bind; [apply exits_lift | intros]).
  apply exits_when. no_exit.
Qed.

Lemma detect_changes_exits Q env p status policy_dict :
  exits Q (detect_changes env p status policy_dict).
Proof.
  unfold detect_changes, compare_vpc, compare_policy.
  repeat first
    [ apply compare_block_exits
    | apply compare_vpc_field_exits
    | apply exits_lift
    | apply exits_when
    | apply exits_bind; [| intros]
    | no_exit ].
Qed.

Lemma update_if_changed_exits Q env p : exits Q (update_if_changed env p).
Proof.
  unfold update_if_changed.
  apply exits_bind; [no_exit | intros c]. apply exits_when.
  apply exits_bind; [no_exit | intros s0].
  apply exits_bind; [apply exits_lift | intros k].
  apply exits_bind; [apply exits_call | intros]. apply exits_ret.
Qed.

Lemma try_body_exits Q env p : exits Q (try_body env p).
Proof.
  unfold try_body.
  apply exits_bind; [apply exits_call | intros].
  apply exits_bind; [apply exits_lift | intros].
  apply exits_bind; [apply normalize_policy_exits | intros].
  apply exits_bind; [apply detect_changes_exits | intros].
  apply update_if_changed_exits.
Qed.

Lemma except_ClientError_exits env p code message :
  exits is_failure (except_ClientError env p code message).
Proof.
  unfold except_ClientError.
  apply exits_bind; [no_exit | intros].
  destruct (String.eqb code "ResourceNotFoundException").
  - apply exits_bind; [no_exit | intros s0].
    apply exits_bind; [apply exits_lift | intros k].
    apply exits_bind; [apply exits_call | intros]. apply exits_ret.
  - intros st s [= <-]. now eexists.
Qed.

(** The reconciliation exits through [fail_json] only. *)
Lemma reconcile_exits env p : exits is_failure (reconcile env p).
Proof.
  apply exits_try; [apply try_body_exits | apply except_ClientError_exits].
Qed.

(** An invocation that reports has come through the reconciliation, and
    reports the [changed] it found there. *)
Lemma main_reports env p c final log :
  main env p = (Exited (ExitJson c final), log) ->
  exists st,
    reconcile env p (at_try p) = (Val tt, st) /\ changed st = c /\
    HAS_BOTO env = true /\
    serializable (PDict (access_policies p)) = true.
Proof.
  rewrite main_run. unfold main_body.
  destruct (HAS_BOTO env); [|discriminate]. cbn [negb].
  unfold json_dumps.
  destruct (serializable (PDict (access_policies p))); [|discriminate].
  change (bind (set_changed false)
            (fun _ => bind (set_pdoc (json_text (PDict (access_policies p))))
                        (fun _ => bind (reconcile env p)
                                    (fun _ => report env p))) entry)
    with (bind (reconcile env p) (fun _ => report env p) (at_try p)).
  unfold bind.
  pose proof (reconcile_exits env p (at_try p)) as Hx.
  destruct (reconcile env p (at_try p)) as [[[]|e|s] st] eqn:E.
  - unfold report, bind, call, get_changed, exit_json.
    destruct (client env (calls st) (describe_elasticsearch_domain (name p)));
      [|discriminate].
    cbn. intros [= <- <- <-]. now exists st.
  - discriminate.
  - cbn. intros [= -> _]. destruct (Hx _ eq_refl). discriminate.
Qed.

(** *** Where [changed] is set *)

Lemma changed_step {A} (m : M A) st r st1 :
  frame only_changed m -> m st = (r, st1) ->
  changed st = true -> changed st1 = true.
Proof. intros F E. specialize (F st). rewrite E in F. apply F. Qed.

Lemma compare_block_differs status key desired current st st1 :
  dict_get status key = Some current ->
  py_eq current (PDict desired) = false ->
  compare_block (PDict status) key desired st = (Val tt, st1) ->
  changed st1 = true.
Proof.
  intros Hg Hne. rewrite compare_block_run. unfold py_getitem, py_ne.
  rewrite Hg, Hne. now intros [= <-].
Qed.

(** A whole block that differs sets [changed], whatever the other blocks
    are. *)
Lemma detect_changes_differs env p status policy_dict key desired current
    st st1 :
  In (key, desired) (whole_blocks p) ->
  dict_get status key = Some current ->
  py_eq current (PDict desired) = false ->
  detect_changes env p (PDict status) policy_dict st = (Val tt, st1) ->
  changed st1 = true.
Proof.
  intros Hin Hg Hne. unfold detect_changes. intros H.
  apply bind_Val_inv in H. destruct H as ([] & s1 & H1 & H).
  apply bind_Val_inv in H. destruct H as ([] & s2 & H2 & H).
  apply bind_Val_inv in H. destruct H as ([] & s3 & H3 & H).
  apply bind_Val_inv in H. destruct H as ([] & s4 & H4 & H).
  apply bind_Val_inv in H. destruct H as ([] & s5 & H5 & H6).
  pose proof (fun st r st1 => changed_step _ st r st1
                (compare_block_frame (PDict status) "EBSOptions"
                   (ebs_options p))) as F2.
  pose proof (fun st r st1 => changed_step _ st r st1
                (compare_block_frame (PDict status) "CognitoOptions"
                   (cognito_options p))) as F3.
  pose proof (fun st r st1 => changed_step _ st r st1
                (compare_vpc_frame (PDict status) p)) as F4.
  pose proof (fun st r st1 => changed_step _ st r st1
                (compare_block_frame (PDict status) "SnapshotOptions"
                   (snapshot_options p))) as F5.
  pose proof (fun st r st1 => changed_step _ st r st1
                (compare_policy_frame env (PDict status) policy_dict)) as F6.
  destruct Hin as [E|[E|[E|[E|[]]]]]; injection E as <- <-.
  - pose proof (compare_block_differs _ _ _ _ _ _ Hg Hne H1). eauto 10.
  - pose proof (compare_block_differs _ _ _ _ _ _ Hg Hne H2). eauto 10.
  - pose proof (compare_block_differs _ _ _ _ _ _ Hg Hne H3). eauto 10.
  - pose proof (compare_block_differs _ _ _ _ _ _ Hg Hne H5). eauto 10.
Qed.

Lemma update_if_changed_stays env p st r st1 :
  update_if_changed env p st = (r, st1) ->
  changed st1 = changed st.
Proof.
  unfold update_if_changed, bind, get_changed, get_pdoc, when.
  destruct (changed st) eqn:Hc; [| now intros [= _ <-]].
  unfold bind, lift.
  destruct (with_vpc_options p (update_keyword_args p (pdoc st)));
    [| now intros [= _ <-]].
  unfold ret, call.
  destruct (client env (calls st) (update_elasticsearch_domain_config a));
    now intros [= _ <-].
Qed.

Lemma except_ClientError_sets_changed env p code message st r st1 :
  except_ClientError env p code message st = (r, st1) ->
  changed st1 = true.
Proof.
  unfold except_ClientError, bind, set_changed, get_pdoc.
  destruct (String.eqb code "ResourceNotFoundException");
    [| now intros [= _ <-]].
  unfold lift. cbn [pdoc].
  destruct (with_vpc_options p (create_keyword_args p (pdoc st)));
    [| now intros [= _ <-]].
  unfold ret, call. cbn [calls changed pdoc].
  destruct (client env (calls st) (create_elasticsearch_domain a));
    now intros [= _ <-].
Qed.

(** *** A read that fails *)

Lemma reconcile_read_fails env p code message :
  read_fails env p code message ->
  reconcile env p (at_try p) =
  except_ClientError env p code message
    (after_read p (json_text (PDict (access_policies p)))).
Proof.
  intros [op Hr]. unfold reconcile, try_except_ClientError, try_body.
  now rewrite (bind_Raise _ _ _ _ _ (first_read _ _ _ Hr)).
Qed.

(** *** Writes that go through *)

(** A missing domain is created, when the VPC guard passes and the provider
    accepts the create and the final read. *)
Lemma create_run env p message k created final :
  read_fails env p "ResourceNotFoundException" message ->
  with_vpc_options p
    (create_keyword_args p (json_text (PDict (access_policies p)))) = OK k ->
  client env [describe p] (create_elasticsearch_domain k) = OK created ->
  client env [describe p; create_elasticsearch_domain k] (describe p)
  = OK final ->
  main env p =
  (Exited (ExitJson true final),
   [describe p; create_elasticsearch_domain k; describe p]).
Proof.
  intros Hr Hk Hc Hf.
  rewrite main_run, (main_body_read_fails _ _ _ _ Hr).
  unfold bind. rewrite !(reconcile_read_fails _ _ _ _ Hr).
  unfold except_ClientError, bind, set_changed, get_pdoc, lift, after_read.
  cbn [String.eqb Ascii.eqb Bool.eqb pdoc calls changed].
  rewrite Hk. unfold ret, call. cbn [calls changed pdoc]. rewrite Hc.
  unfold report, bind, call. cbn [calls changed pdoc app].
  fold (describe p). rewrite Hf. reflexivity.
Qed.

(** A detected change is written, when the VPC guard passes and the
    provider accepts the update and the final read. *)
Lemma update_run env p response status policy_dict s k updated final :
  reads env p (OK response) ->
  py_getitem response "DomainStatus" = OK status ->
  normalize_policy status (access_policies p)
    (after_read p (json_text (PDict (access_policies p))))
  = (Val policy_dict, after_read p s) ->
  detect_changes env p status policy_dict (after_read p s)
  = (Val tt, mkLocals true s [describe p]) ->
  with_vpc_options p (update_keyword_args p s) = OK k ->
  client env [describe p] (update_elasticsearch_domain_config k)
  = OK updated ->
  client env [describe p; update_elasticsearch_domain_config k] (describe p)
  = OK final ->
  main env p =
  (Exited (ExitJson true final),
   [describe p; update_elasticsearch_domain_config k; describe p]).
Proof.
  intros Hr Hs Hn Hd Hk Hu Hf.
  rewrite main_run, (main_body_reads _ _ _ Hr).
  assert (Ht : reconcile env p (at_try p) =
               (Val tt, mkLocals true s
                          [describe p; update_elasticsearch_domain_config k])).
  { unfold reconcile, try_except_ClientError, try_body.
    rewrite (bind_Val _ _ _ _ _ (first_read _ _ _ Hr)).
    rewrite (bind_Val _ _ _ status _) by (now rewrite Hs).
    rewrite (bind_Val _ _ _ _ _ Hn), (bind_Val _ _ _ _ _ Hd).
    unfold update_if_changed, bind, get_changed, get_pdoc, when, lift.
    cbn [changed pdoc]. unfold bind. rewrite Hk.
    unfold ret, call. cbn [calls changed pdoc]. now rewrite Hu. }
  rewrite (bind_Val _ _ _ _ _ Ht).
  unfold report, bind, call. cbn [calls changed pdoc app].
  fold (describe p). rewrite Hf. reflexivity.
Qed.

(** *** The encryption parameters *)

(** The VPC guard does not look at the keyword arguments. *)
Lemma with_vpc_options_cases p :
  (exists e, forall keyword_args, with_vpc_options p keyword_args = Err e) \/
  (forall keyword_args, exists k, with_vpc_options p keyword_args = OK k).
Proof.
  unfold with_vpc_options.
  destruct (py_getitem (PDict (vpc_options p)) "SubnetIds") as [a|e];
    [| left; now exists e].
  destruct (py_truthy a); [right; intros; now eexists|].
  destruct (py_getitem (PDict (vpc_options p)) "SecurityGroupIds") as [b|e];
    [| left; now exists e].
  destruct (py_truthy b); right; intros; now eexists.
Qed.

Lemma report_keeps_create env p st :
  existsb is_create (calls st) = true ->
  existsb is_create (calls (snd (report env p st))) = true.
Proof.
  intros H. unfold report, bind, call.
  destruct (client env (calls st) (describe_elasticsearch_domain (name p)));
    cbn; rewrite existsb_app, H; reflexivity.
Qed.

(** The reconciliation is the same under other encryption parameters,
    unless it issues a create. *)
Lemma reconcile_encryption env p enabled kms_key_id st :
  reconcile env (with_encryption enabled kms_key_id p) st = reconcile env p st
  \/ existsb is_create (calls (snd (reconcile env p st))) = true.
Proof.
  unfold reconcile, try_except_ClientError.
  change (try_body env (with_encryption enabled kms_key_id p))
    with (try_body env p).
  destruct (try_body env p st) as [[[]|e|s] st1]; auto.
  destruct e; auto.
  unfold except_ClientError, bind, set_changed, get_pdoc, lift.
  destruct (String.eqb Code "ResourceNotFoundException"); auto.
  cbn [pdoc].
  change (with_vpc_options (with_encryption enabled kms_key_id p))
    with (with_vpc_options p).
  destruct (with_vpc_options_cases p) as [[e He]|Hk].
  - left. now rewrite !He.
  - right. destruct (Hk (create_keyword_args p (pdoc st1))) as [k ->].
    unfold ret, call. cbn [calls].
    destruct (client env (calls st1) (create_elasticsearch_domain k));
      cbn; rewrite existsb_app; cbn; apply orb_true_r.
Qed.

Lemma main_encryption env p enabled kms_key_id :
  existsb is_create (snd (main env p)) = false ->
  main env (with_encryption enabled kms_key_id p) = main env p.
Proof.
  rewrite !main_run. cbn [snd].
  unfold main_body.
  change (access_policies (with_encryption enabled kms_key_id p))
    with (access_policies p).
  change (report env (with_encryption enabled kms_key_id p))
    with (report env p).
  destruct (HAS_BOTO env); cbn [negb]; [|reflexivity].
  destruct (json_dumps (PDict (access_policies p))) as [s|e]; [|reflexivity].
  set (st0 := mkLocals false s []).
  change (bind (set_changed false)
            (fun _ => bind (set_pdoc s)
                        (fun _ => bind (reconcile env p)
                                    (fun _ => report env p))) entry)
    with (bind (reconcile env p) (fun _ => report env p) st0).
  change (bind (set_changed false)
            (fun _ => bind (set_pdoc s)
                        (fun _ => bind
                                    (reconcile env
                                       (with_encryption enabled kms_key_id p))
                                    (fun _ => report env p))) entry)
    with (bind (reconcile env (with_encryption enabled kms_key_id p))
            (fun _ => report env p) st0).
  intros H.
  destruct (reconcile_encryption env p enabled kms_key_id st0) as [E|E].
  - unfold bind. now rewrite E.
  - exfalso. revert H. unfold bind.
    destruct (reconcile env p st0) as [[[]|e|x] st1]; cbn [snd] in *.
    + rewrite (report_keeps_create _ _ _ E). discriminate.
    + rewrite E. discriminate.
    + rewrite E. discriminate.
Qed.

(** *** The first read *)

Lemma only_pdoc_grow a b : only_pdoc a b -> calls_grow a b.
Proof. intros [_ H]. now apply same_calls_grow. Qed.

Lemma only_changed_grow a b : only_changed a b -> calls_grow a b.
Proof. intros (_ & H & _). now apply same_calls_grow. Qed.

Lemma update_if_changed_grow env p : frame calls_grow (update_if_changed env p).
Proof.
  unfold update_if_changed.
  apply frame_bind; [apply frame_get_changed | intros c].
  apply frame_when.
  apply frame_bind; [apply frame_get_pdoc | intros s].
  apply frame_bind; [apply frame_lift | intros k].
  apply frame_bind; [apply frame_call_grow | intros]. apply frame_ret.
Qed.

Lemma except_ClientError_grow env p code message :
  frame calls_grow (except_ClientError env p code message).
Proof.
  unfold except_ClientError.
  apply frame_bind; [intros st; now apply same_calls_grow | intros _].
  apply frame_if; [| apply frame_fail_json].
  apply frame_bind; [apply frame_get_pdoc | intros s].
  apply frame_bind; [apply frame_lift | intros k].
  apply frame_bind; [apply frame_call_grow | intros]. apply frame_ret.
Qed.

Lemma seq_try_first_Val {A B C} (first : M A) (k : A -> M B) handler
    (rest : M C) st a st1 :
  first st = (Val a, st1) ->
  bind (try_except_ClientError (bind first k) handler) (fun _ => rest) st =
  bind (try_except_ClientError (k a) handler) (fun _ => rest) st1.
Proof. intros H. unfold bind, try_except_ClientError. now rewrite H. Qed.

Lemma seq_try_first_Raise {A B C} (first : M A) (k : A -> M B) handler
    (rest : M C) st e st1 :
  first st = (Raise e, st1) ->
  bind (try_except_ClientError (bind first k) handler) (fun _ => rest) st =
  bind (match e with
        | ClientError code message _ => handler code message
        | _ => raise e
        end) (fun _ => rest) st1.
Proof.
  intros H. unfold bind, try_except_ClientError. rewrite H.
  now destruct e.
Qed.

Lemma report_grow env p : frame calls_grow (report env p).
Proof.
  unfold report.
  apply frame_bind; [apply frame_call_grow | intros response].
  apply frame_bind; [apply frame_get_changed | intros c].
  apply frame_exit_json.
Qed.

(** [reads env p r] says that the first provider call of the invocation is
    the read of the domain, answered with [r]. *)
Lemma reads_first_call env p r :
  reads env p r <->
  hd_error (snd (main env p)) = Some (describe p) /\
  client env [] (describe p) = r.
Proof.
  split.
  - intros Hr. split; [| apply Hr].
    rewrite main_run, (main_body_reads _ _ _ Hr). cbn [snd].
    pose proof (first_read _ _ _ Hr) as H1.
    set (st1 := after_read p (json_text (PDict (access_policies p)))) in *.
    assert (G : forall (m : M Empty_set),
               frame calls_grow m ->
               hd_error (calls (snd (m st1))) = Some (describe p)).
    { intros m Hm. destruct (Hm st1) as [l Hl]. now rewrite Hl. }
    unfold reconcile, try_body.
    destruct r as [response|e].
    + rewrite (seq_try_first_Val _ _ _ _ _ _ _ H1). apply G.
      apply frame_bind; [| intros _; apply report_grow].
      apply frame_try; [| apply except_ClientError_grow].
      apply frame_bind; [apply frame_lift | intros status].
      apply frame_bind; [| intros policy_dict].
      { eapply frame_weaken;
          [apply only_pdoc_grow | apply normalize_policy_frame]. }
      apply frame_bind; [| intros _; apply update_if_changed_grow].
      eapply frame_weaken;
        [apply only_changed_grow | apply detect_changes_frame].
    + rewrite (seq_try_first_Raise _ _ _ _ _ _ _ H1). apply G.
      apply frame_bind; [| intros _; apply report_grow].
      destruct e; try apply frame_raise. apply except_ClientError_grow.
  - intros [Hh Hc]. repeat split; [| | exact Hc].
    + revert Hh. rewrite main_run. unfold main_body.
      now destruct (HAS_BOTO env).
    + revert Hh. rewrite main_run. unfold main_body.
      destruct (HAS_BOTO env); [|discriminate]. cbn [negb].
      unfold json_dumps.
      now destruct (serializable (PDict (access_policies p))).
Qed.

End EsFacts.

(* ================================================================== *)
(** ** Facts about the cases of an invocation *)
(* ================================================================== *)

Module CaseFacts.
Import Py Exec Es Spec Sample Cases ValueFacts ExecFacts EsFacts.
Local Open Scope exec_scope.

(** *** Equality of a value with itself *)

Lemma py_eq_dict d1 d2 :
  py_eq (PDict d1) (PDict d2) =
  Nat.eqb (length d1) (length d2) && forallb (entries_agree d2) d1.
Proof.
  cbn [py_eq]. f_equal.
  induction d1 as [|[k v] d1 IH]; [reflexivity|].
  cbn [forallb]. rewrite <- IH. reflexivity.
Qed.

Lemma py_eq_list l1 l2 : py_eq (PList l1) (PList l2) = list_eq l1 l2.
Proof.
  revert l2. induction l1 as [|x l1 IH]; intros [|y l2]; reflexivity.
Qed.

Lemma dict_get_distinct (d : pydict) k v :
  distinct (map fst d) = true -> In (k, v) d -> dict_get d k = Some v.
Proof.
  induction d as [|[k' v'] d IH]; [intros _ []|].
  cbn [map fst distinct dict_get]. intros Hd [E|Hin].
  - injection E as -> ->. now rewrite String.eqb_refl.
  - apply andb_true_iff in Hd. destruct Hd as [Hk Hd].
    destruct (String.eqb k k') eqn:E; [|auto].
    apply String.eqb_eq in E. subst k'. exfalso.
    apply negb_true_iff in Hk.
    assert (Hex : existsb (String.eqb k) (map fst d) = true).
    { apply existsb_exists. exists k. split; [|apply String.eqb_refl].
      apply in_map_iff. now exists (k, v). }
    congruence.
Qed.

(** [==] holds between a value and itself. *)
Lemma py_eq_refl v : well_formed v = true -> py_eq v v = true.
Proof.
  induction v as [| b | z | s | a | l IH | d IH] using pyval_nested_ind;
    intros Hwf.
  - reflexivity.
  - now destruct b.
  - apply Z.eqb_refl.
  - apply String.eqb_refl.
  - apply N.eqb_refl.
  - rewrite py_eq_list. cbn [well_formed] in Hwf.
    induction IH as [|x l Hx _ IHl]; [reflexivity|].
    cbn [forallb] in Hwf. apply andb_true_iff in Hwf.
    destruct Hwf as [H1 H2]. cbn [list_eq]. now rewrite Hx, IHl.
  - rewrite py_eq_dict, Nat.eqb_refl. cbn [andb].
    cbn [well_formed] in Hwf. apply andb_true_iff in Hwf.
    destruct Hwf as [Hd Hv].
    apply forallb_forall. intros [k v] Hin. unfold entries_agree.
    cbn [fst snd]. rewrite (dict_get_distinct _ _ _ Hd Hin).
    rewrite Forall_forall in IH. rewrite forallb_forall in Hv.
    exact (IH _ Hin (Hv _ Hin)).
Qed.

(** *** The dictionaries the routine builds *)

Lemma keys_dict_set (d : pydict) k v k0 :
  existsb (String.eqb k0) (map fst (dict_set d k v)) =
  existsb (String.eqb k0) (map fst d) || String.eqb k0 k.
Proof.
  induction d as [|[k' v'] d IH]; cbn [dict_set map fst existsb].
  - apply orb_comm.
  - destruct (String.eqb k k') eqn:E; cbn [map fst existsb].
    + apply String.eqb_eq in E. subst k'.
      destruct (String.eqb k0 k); [reflexivity|].
      cbn [orb]. now rewrite orb_false_r.
    + rewrite IH. apply orb_assoc.
Qed.

Lemma distinct_dict_set (d : pydict) k v :
  distinct (map fst d) = true -> distinct (map fst (dict_set d k v)) = true.
Proof.
  induction d as [|[k' v'] d IH]; cbn [dict_set map fst distinct];
    [reflexivity|].
  intros H. apply andb_true_iff in H. destruct H as [H1 H2].
  destruct (String.eqb k k') eqn:E; cbn [map fst distinct].
  - now rewrite H1, H2.
  - rewrite keys_dict_set, (IH H2), andb_true_r.
    apply negb_true_iff in H1. rewrite H1. cbn [orb].
    rewrite String.eqb_sym. now rewrite E.
Qed.

Lemma well_formed_dict_set (d : pydict) k v :
  well_formed (PDict d) = true ->
  well_formed v = true ->
  well_formed (PDict (dict_set d k v)) = true.
Proof.
  cbn [well_formed]. intros H Hv.
  apply andb_true_iff in H. destruct H as [H1 H2].
  rewrite (distinct_dict_set _ _ _ H1). cbn [andb].
  clear H1. induction d as [|[k' v'] d IH]; cbn [dict_set forallb snd] in *.
  - now rewrite Hv.
  - apply andb_true_iff in H2. destruct H2 as [H2 H3].
    destruct (String.eqb k k'); cbn [forallb snd].
    + now rewrite Hv, H3.
    + now rewrite H2, IH.
Qed.

Lemma well_formed_dict_get (d : pydict) k v :
  well_formed (PDict d) = true ->
  dict_get d k = Some v ->
  well_formed v = true.
Proof.
  cbn [well_formed]. intros H Hg.
  apply andb_true_iff in H. destruct H as [_ H].
  rewrite forallb_forall in H. exact (H _ (dict_get_In _ _ _ Hg)).
Qed.

Lemma well_formed_str_list l : well_formed (str_list l) = true.
Proof.
  unfold str_list. cbn [well_formed].
  induction l as [|x l IH]; [reflexivity | exact IH].
Qed.

Lemma well_formed_cluster_config p :
  well_formed (PDict (cluster_config p)) = true.
Proof.
  unfold cluster_config.
  destruct (zone_awareness p), (warm_enabled p), (dedicated_master p),
    (availability_zone_count p), (warm_type p), (warm_count p),
    (dedicated_master_instance_type p), (dedicated_master_instance_count p);
    reflexivity.
Qed.

Lemma well_formed_ebs_options p : well_formed (PDict (ebs_options p)) = true.
Proof.
  unfold ebs_options. destruct (ebs p), (iops p); reflexivity.
Qed.

Lemma well_formed_cognito_options p :
  well_formed (PDict (cognito_options p)) = true.
Proof.
  unfold cognito_options.
  destruct (cognito_enabled p), (cognito_user_pool_id p),
    (cognito_identity_pool_id p), (cognito_role_arn p); reflexivity.
Qed.

Lemma well_formed_populate arn statement :
  well_formed statement = true ->
  well_formed (populate arn statement) = true.
Proof.
  destruct statement as [| | | | |d|]; cbn [populate]; auto.
  destruct (dict_mem d "Resource"); auto.
  intros H. now apply well_formed_dict_set.
Qed.

Lemma well_formed_populated arn policy :
  well_formed (PDict policy) = true ->
  well_formed (PDict (populated arn policy)) = true.
Proof.
  intros H. unfold populated.
  destruct (dict_get policy "Statement") as [v|] eqn:Hst; [|exact H].
  destruct v as [| | | |statements| |]; try exact H.
  apply well_formed_dict_set; [exact H|].
  pose proof (well_formed_dict_get _ _ _ H Hst) as Hs.
  cbn [well_formed] in *. clear Hst.
  induction statements as [|x l IH]; [reflexivity|].
  cbn [map forallb] in *. apply andb_true_iff in Hs. destruct Hs as [H1 H2].
  now rewrite (well_formed_populate _ _ H1), IH.
Qed.

(** *** The comparisons on a comparable status *)

Lemma locals_eta st : mkLocals (changed st) (pdoc st) (calls st) = st.
Proof. now destruct st. Qed.

Lemma compare_block_present status key desired st :
  dict_mem status key = true ->
  compare_block (PDict status) key desired st =
  (Val tt, mkLocals (changed st || negb (block_equal status key desired))
             (pdoc st) (calls st)).
Proof.
  intros H. rewrite compare_block_run.
  unfold py_getitem, dict_mem, block_equal, py_ne in *.
  destruct (dict_get status key) as [current|]; [|discriminate].
  destruct (py_eq current (PDict desired)); cbn [negb].
  - now rewrite orb_false_r, locals_eta.
  - now rewrite orb_true_r.
Qed.

Lemma compare_vpc_field_present status current p key st :
  dict_get status "VPCOptions" = Some (PDict current) ->
  dict_mem current key = true ->
  dict_mem (vpc_options p) key = true ->
  compare_vpc_field (PDict status) p key st =
  (Val tt, mkLocals
             (changed st || negb (field_equal current (vpc_options p) key))
             (pdoc st) (calls st)).
Proof.
  intros Hv Hc Hd. unfold compare_vpc_field, bind, lift, field_equal.
  unfold py_getitem at 1. rewrite Hv. cbn [ret].
  unfold py_getitem, dict_mem in *.
  destruct (dict_get current key) as [x|]; [|discriminate].
  destruct (dict_get (vpc_options p) key) as [y|]; [|discriminate].
  cbn [ret]. unfold py_ne, when.
  destruct (py_eq x y); cbn [negb].
  - now rewrite orb_false_r, locals_eta.
  - now rewrite orb_true_r.
Qed.

Lemma compare_vpc_comparable status p st :
  vpc_comparable status p = true ->
  compare_vpc (PDict status) p st =
  (Val tt, mkLocals (changed st || negb (vpc_equal status p))
             (pdoc st) (calls st)).
Proof.
  unfold vpc_comparable, vpc_equal. intros H. unfold compare_vpc.
  rewrite (bind_Val _ _ st (dict_mem status "VPCOptions") st) by reflexivity.
  unfold dict_mem at 1.
  destruct (dict_get status "VPCOptions") as [v|] eqn:Hv.
  - destruct v as [| | | | |current|]; try discriminate.
    apply andb_true_iff in H. destruct H as [H Hg2].
    apply andb_true_iff in H. destruct H as [H Hg1].
    apply andb_true_iff in H. destruct H as [Hs1 Hs2].
    cbn [when].
    rewrite (bind_Val _ _ _ _ _
               (compare_vpc_field_present _ _ _ "SubnetIds" st Hv Hs1 Hs2)).
    rewrite (compare_vpc_field_present _ _ _ "SecurityGroupIds" _ Hv Hg1 Hg2).
    cbn [changed pdoc calls]. f_equal. f_equal.
    destruct (changed st),
      (field_equal current (vpc_options p) "SubnetIds"),
      (field_equal current (vpc_options p) "SecurityGroupIds"); reflexivity.
  - cbn [when negb]. unfold ret. now rewrite orb_false_r, locals_eta.
Qed.

Lemma compare_policy_comparable env status policy_dict st :
  policy_comparable env status = true ->
  compare_policy env (PDict status) policy_dict st =
  (Val tt, mkLocals (changed st || negb (policy_equal env status policy_dict))
             (pdoc st) (calls st)).
Proof.
  unfold policy_comparable, policy_equal. intros H.
  unfold compare_policy, bind, lift, py_getitem.
  destruct (dict_get status "AccessPolicies") as [v|]; [|discriminate].
  destruct v as [| | |text| | |]; try discriminate.
  cbn [ret loads].
  destruct (json_loads env text) as [current|]; [|discriminate].
  cbn [ret]. unfold py_ne, when.
  destruct (py_eq current (PDict policy_dict)); cbn [negb].
  - now rewrite orb_false_r, locals_eta.
  - now rewrite orb_true_r.
Qed.

(** On a comparable status the comparisons raise nothing, and set
    [changed] exactly when the status is out of sync. *)
Lemma detect_changes_comparable env p status arn st :
  comparable env p status = true ->
  detect_changes env p (PDict status) (populated arn (access_policies p)) st
  = (Val tt, mkLocals (changed st || negb (in_sync env p status arn))
               (pdoc st) (calls st)).
Proof.
  unfold comparable. intros H.
  apply andb_true_iff in H. destruct H as [H Hpolicy].
  apply andb_true_iff in H. destruct H as [H Hsnapshot].
  apply andb_true_iff in H. destruct H as [H Hvpc].
  apply andb_true_iff in H. destruct H as [H Hcognito].
  apply andb_true_iff in H. destruct H as [Hcluster Hebs].
  unfold detect_changes.
  rewrite (bind_Val _ _ _ _ _ (compare_block_present _ _ _ _ Hcluster)).
  rewrite (bind_Val _ _ _ _ _ (compare_block_present _ _ _ _ Hebs)).
  rewrite (bind_Val _ _ _ _ _ (compare_block_present _ _ _ _ Hcognito)).
  rewrite (bind_Val _ _ _ _ _ (compare_vpc_comparable _ _ _ Hvpc)).
  rewrite (bind_Val _ _ _ _ _ (compare_block_present _ _ _ _ Hsnapshot)).
  rewrite (compare_policy_comparable _ _ _ _ Hpolicy).
  cbn [changed pdoc calls]. unfold in_sync. f_equal. f_equal.
  destruct (changed st),
    (block_equal status "ElasticsearchClusterConfig" (cluster_config p)),
    (block_equal status "EBSOptions" (ebs_options p)),
    (block_equal status "CognitoOptions" (cognito_options p)),
    (vpc_equal status p),
    (block_equal status "SnapshotOptions" (snapshot_options p)),
    (policy_equal env status (populated arn (access_policies p)));
    reflexivity.
Qed.

(** *** The policy an update carries *)

Lemma map_populate_same arn l :
  existsb lacks_resource l = false -> map (populate arn) l = l.
Proof.
  induction l as [|x l IH]; [reflexivity|].
  cbn [existsb]. intros H. apply orb_false_iff in H. destruct H as [Hx Hl].
  cbn [map]. rewrite (IH Hl). f_equal.
  destruct x as [| | | | |d|]; try reflexivity.
  cbn in Hx. apply negb_false_iff in Hx. cbn [populate]. now rewrite Hx.
Qed.

(** After the loop, [pdoc] is the text of the policy with its statements
    populated if a statement lacked its resource, and untouched if none
    did. *)
Lemma normalize_statements_text status arn policy rest :
  dict_get status "ARN" = Some (PStr arn) ->
  serializable (PDict policy) = true ->
  forall visited st,
    forallb serializable visited = true ->
    forallb serializable rest = true ->
    forallb is_dict rest = true ->
    normalize_statements (PDict status) policy visited rest st =
    (Val (visited ++ map (populate arn) rest)%list,
     mkLocals (changed st)
       (if existsb lacks_resource rest
        then json_text
               (PDict (dict_set policy "Statement"
                         (PList (visited ++ map (populate arn) rest))))
        else pdoc st)
       (calls st)).
Proof.
  intros Harn Hpol.
  induction rest as [|statement rest IH]; intros visited st Hv Hr Hd.
  - cbn. now rewrite app_nil_r, locals_eta.
  - cbn [forallb] in Hr, Hd.
    apply andb_true_iff in Hr. destruct Hr as [Hs Hr].
    apply andb_true_iff in Hd. destruct Hd as [Hsd Hd].
    destruct statement as [| | | | |d|]; try discriminate.
    cbn [normalize_statements].
    rewrite (bind_Val _ _ st (dict_mem d "Resource") st) by reflexivity.
    cbn [map populate existsb lacks_resource].
    destruct (dict_mem d "Resource") eqn:Hm; cbn [negb orb].
    + rewrite (IH (visited ++ [PDict d])%list st); auto.
      * now rewrite <- app_assoc.
      * rewrite forallb_app, Hv. cbn [forallb]. now rewrite Hs.
    + set (statement' := PDict (dict_set d "Resource" (PStr (arn ++ "/*")))).
      assert (Hs2 : serializable statement' = true)
        by (apply serializable_dict_set; auto).
      rewrite (bind_Val _ _ st (PStr arn) st)
        by (unfold py_getitem; now rewrite Harn).
      rewrite (bind_Val _ _ st statement' st) by reflexivity.
      set (policy' := PDict (dict_set policy "Statement"
                               (PList (visited ++ statement' :: rest)))).
      assert (Hp2 : serializable policy' = true).
      { apply serializable_dict_set; auto.
        rewrite serializable_list, forallb_app, Hv. cbn [forallb].
        now rewrite Hs2, Hr. }
      rewrite (bind_Val _ _ st (json_text policy') st)
        by (now rewrite (json_dumps_OK _ Hp2)).
      rewrite (bind_Val _ _ st tt (mkLocals (changed st) (json_text policy')
                                     (calls st))) by reflexivity.
      rewrite (IH (visited ++ [statement'])%list); auto.
      * cbn [changed pdoc calls]. rewrite <- !app_assoc. cbn [app].
        destruct (existsb lacks_resource rest) eqn:Hl; [reflexivity|].
        unfold policy'. now rewrite (map_populate_same _ _ Hl).
      * rewrite forallb_app, Hv. cbn [forallb]. now rewrite Hs2.
Qed.

(** On an existing domain, right after the read: the loop returns the
    populated policy and leaves its text in [pdoc]. *)
Lemma normalize_policy_at_read env p status arn :
  existing_domain env p status arn ->
  policy_document (access_policies p) = true ->
  normalize_policy (PDict status) (access_policies p)
    (after_read p (json_text (PDict (access_policies p)))) =
  (Val (populated arn (access_policies p)),
   after_read p (populated_text arn p)).
Proof.
  intros Hex Hdoc.
  pose proof (existing_domain_arn _ _ _ _ Hex) as Harn.
  pose proof (existing_domain_serializable _ _ _ _ Hex) as Hser.
  unfold policy_document in Hdoc. unfold populated_text, populated.
  destruct (dict_get (access_policies p) "Statement") as [v|] eqn:Hst;
    [|discriminate].
  destruct v as [| | | |statements| |]; try discriminate.
  unfold normalize_policy.
  rewrite (bind_Val _ _ _ (PList statements) _)
    by (unfold py_getitem; now rewrite Hst).
  rewrite (bind_Val _ _ _ statements _) by reflexivity.
  rewrite (bind_Val _ _ _ _ _
             (normalize_statements_text status arn (access_policies p)
                statements Harn Hser [] _ eq_refl
                (serializable_dict_get _ _ _ Hser Hst) Hdoc)).
  cbn [app changed pdoc calls after_read ret]. unfold ret, after_read.
  destruct (existsb lacks_resource statements) eqn:Hl; [reflexivity|].
  rewrite (map_populate_same _ _ Hl).
  now rewrite (dict_set_same _ _ _ Hst).
Qed.

(** *** The VPC guard *)

Lemma vpc_options_subnets p :
  no_subnets p = false ->
  exists x l, dict_get (vpc_options p) "SubnetIds" = Some (str_list (x :: l)).
Proof.
  unfold no_subnets, vpc_options.
  destruct (vpc_subnets p) as [[|x l]|]; try discriminate. intros _.
  exists x, l. now destruct (vpc_security_groups p) as [[|y l']|].
Qed.

Lemma with_vpc_options_subnets p keyword_args :
  no_subnets p = false ->
  with_vpc_options p keyword_args = OK (in_vpc p keyword_args).
Proof.
  intros H. destruct (vpc_options_subnets _ H) as (x & l & Hg).
  unfold with_vpc_options, py_getitem. now rewrite Hg.
Qed.

(** *** The read path on a comparable status *)

Lemma try_body_comparable env p status arn :
  existing_domain env p status arn ->
  policy_document (access_policies p) = true ->
  comparable env p status = true ->
  try_body env p (at_try p) =
  update_if_changed env p
    (mkLocals (negb (in_sync env p status arn)) (populated_text arn p)
       [describe p]).
Proof.
  intros Hex Hdoc Hcmp.
  rewrite (try_body_existing _ _ _ _ Hex).
  rewrite (bind_Val _ _ _ _ _ (normalize_policy_at_read _ _ _ _ Hex Hdoc)).
  now rewrite (bind_Val _ _ _ _ _
                 (detect_changes_comparable _ _ _ arn _ Hcmp)).
Qed.

(** The update block, once a change is detected and the guard passes:
    one call, with these keyword arguments. *)
Lemma update_if_changed_calls_update env p s log :
  no_subnets p = false ->
  update_if_changed env p (mkLocals true s log) =
  bind (call env (update_elasticsearch_domain_config
                    (in_vpc p (update_keyword_args p s))))
    (fun _ => ret tt) (mkLocals true s log).
Proof.
  intros H. unfold update_if_changed.
  rewrite (bind_Val _ _ _ true _) by reflexivity. cbn [when].
  rewrite (bind_Val _ _ _ s _) by reflexivity.
  now rewrite (bind_Val _ _ _ (in_vpc p (update_keyword_args p s)) _)
    by (now rewrite (with_vpc_options_subnets _ _ H)).
Qed.

Lemma reconcile_out_of_sync env p status arn :
  existing_domain env p status arn ->
  policy_document (access_policies p) = true ->
  comparable env p status = true ->
  in_sync env p status arn = false ->
  no_subnets p = false ->
  reconcile env p (at_try p) =
  try_except_ClientError
    (bind (call env (update_elasticsearch_domain_config
                       (in_vpc p (update_keyword_args p
                                    (populated_text arn p)))))
       (fun _ => ret tt))
    (except_ClientError env p)
    (mkLocals true (populated_text arn p) [describe p]).
Proof.
  intros Hex Hdoc Hcmp Hsync Hno.
  unfold reconcile, try_except_ClientError.
  rewrite (try_body_comparable _ _ _ _ Hex Hdoc Hcmp), Hsync. cbn [negb].
  now rewrite (update_if_changed_calls_update _ _ _ _ Hno).
Qed.

Lemma main_existing env p status arn :
  existing_domain env p status arn ->
  main env p =
  (outcome_of (fst ((reconcile env p ;; report env p) (at_try p))),
   calls (snd ((reconcile env p ;; report env p) (at_try p)))).
Proof.
  intros (response & Hr & _). now rewrite main_run, (main_body_reads _ _ _ Hr).
Qed.

Lemma main_read_fails env p code message :
  read_fails env p code message ->
  main env p =
  (outcome_of (fst ((reconcile env p ;; report env p) (at_try p))),
   calls (snd ((reconcile env p ;; report env p) (at_try p)))).
Proof.
  intros Hr. now rewrite main_run, (main_body_read_fails _ _ _ _ Hr).
Qed.

(** *** The loop on other policies *)



(** A statement without a resource on a status without an ARN: the loop
    raises at the first such statement, before it assigns anything. *)
Lemma normalize_statements_no_arn status policy rest :
  dict_get status "ARN" = None ->
  forallb is_dict rest = true ->
  existsb lacks_resource rest = true ->
  forall visited st,
    normalize_statements (PDict status) policy visited rest st =
    (Raise (KeyError "ARN"), st).
Proof.
  intros Harn.
  induction rest as [|statement rest IH]; intros Hd Hl visited st;
    [discriminate|].
  cbn [forallb existsb] in Hd, Hl.
  apply andb_true_iff in Hd. destruct Hd as [Hsd Hd].
  destruct statement as [| | | | |d|]; try discriminate.
  cbn [normalize_statements].
  rewrite (bind_Val _ _ st (dict_mem d "Resource") st) by reflexivity.
  cbn [lacks_resource] in Hl.
  destruct (dict_mem d "Resource"); cbn [negb orb] in Hl.
  - now apply IH.
  - now rewrite (bind_Raise _ _ st (KeyError "ARN") st)
      by (unfold py_getitem; now rewrite Harn).
Qed.

(** The keys of a statement object, taken for statements: the first key in
    which [Resource] does not occur cannot be assigned to. *)
Lemma normalize_statements_keys status arn policy keys :
  dict_get status "ARN" = Some arn ->
  existsb (fun k => negb (str_contains "Resource" k)) keys = true ->
  forall visited st,
    normalize_statements (PDict status) policy visited (map PStr keys) st =
    (Raise (TypeError "'str' object does not support item assignment"), st).
Proof.
  intros Harn.
  induction keys as [|k keys IH]; intros Hk visited st; [discriminate|].
  cbn [map normalize_statements].
  rewrite (bind_Val _ _ st (str_contains "Resource" k) st) by reflexivity.
  cbn [existsb] in Hk.
  destruct (str_contains "Resource" k); cbn [negb orb] in Hk.
  - now apply IH.
  - rewrite (bind_Val _ _ st arn st) by (unfold py_getitem; now rewrite Harn).
    now rewrite (bind_Raise _ _ st
                   (TypeError "'str' object does not support item assignment")
                   st) by reflexivity.
Qed.

Lemma normalize_policy_no_arn status policy statements st :
  dict_get status "ARN" = None ->
  dict_get policy "Statement" = Some (PList statements) ->
  forallb is_dict statements = true ->
  existsb lacks_resource statements = true ->
  normalize_policy (PDict status) policy st = (Raise (KeyError "ARN"), st).
Proof.
  intros Harn Hst Hd Hl. unfold normalize_policy.
  rewrite (bind_Val _ _ st (PList statements) st)
    by (unfold py_getitem; now rewrite Hst).
  rewrite (bind_Val _ _ st statements st) by reflexivity.
  now rewrite (bind_Raise _ _ _ _ _
                 (normalize_statements_no_arn status policy statements
                    Harn Hd Hl [] st)).
Qed.

Lemma normalize_policy_object status arn policy statement st :
  dict_get status "ARN" = Some arn ->
  dict_get policy "Statement" = Some (PDict statement) ->
  existsb (fun k => negb (str_contains "Resource" k)) (map fst statement)
  = true ->
  normalize_policy (PDict status) policy st =
  (Raise (TypeError "'str' object does not support item assignment"), st).
Proof.
  intros Harn Hst Hk. unfold normalize_policy.
  rewrite (bind_Val _ _ st (PDict statement) st)
    by (unfold py_getitem; now rewrite Hst).
  rewrite (bind_Val _ _ st (map PStr (map fst statement)) st)
    by (cbn; now rewrite map_map).
  now rewrite (bind_Raise _ _ _ _ _
                 (normalize_statements_keys status arn policy
                    (map fst statement) Harn Hk [] st)).
Qed.

(** A run whose [try] block raises something that is not a provider
    error. *)
Lemma main_try_raises env p r e st :
  reads env p r ->
  try_body env p (at_try p) = (Raise e, st) ->
  is_client_error e = false ->
  main env p = (Uncaught e, calls st).
Proof.
  intros Hr Ht He.
  rewrite main_run, (main_body_reads _ _ _ Hr).
  assert (H : reconcile env p (at_try p) = (Raise e, st)).
  { unfold reconcile, try_except_ClientError. rewrite Ht. now destruct e. }
  now rewrite (bind_Raise _ _ _ _ _ H).
Qed.

Lemma try_body_status env p response status :
  reads env p (OK response) ->
  py_getitem response "DomainStatus" = OK status ->
  try_body env p (at_try p) =
  (policy_dict <- normalize_policy status (access_policies p) ;;
   detect_changes env p status policy_dict ;;
   update_if_changed env p)
    (after_read p (json_text (PDict (access_policies p)))).
Proof.
  intros Hr Hs. unfold try_body.
  rewrite (bind_Val _ _ _ _ _ (first_read _ _ _ Hr)).
  now rewrite (bind_Val _ _ _ status _) by (now rewrite Hs).
Qed.

(** *** The calls of each part *)

Lemma update_if_changed_log env p st :
  exists updates,
    calls (snd (update_if_changed env p st)) = (calls st ++ updates)%list /\
    at_most_one is_update updates.
Proof.
  unfold update_if_changed, bind, get_changed, get_pdoc, when.
  destruct (changed st).
  - unfold bind, lift.
    destruct (with_vpc_options p (update_keyword_args p (pdoc st))) as [k|e].
    + exists [update_elasticsearch_domain_config k]. unfold ret, call.
      split; [| right; now eexists].
      now destruct (client env (calls st)
                      (update_elasticsearch_domain_config k)).
    + exists []. cbn. rewrite app_nil_r. split; [reflexivity | now left].
  - exists []. cbn. rewrite app_nil_r. split; [reflexivity | now left].
Qed.

Lemma except_ClientError_log env p code message st :
  exists creates,
    calls (snd (except_ClientError env p code message st)) =
    (calls st ++ creates)%list /\
    at_most_one is_create creates.
Proof.
  unfold except_ClientError, bind, set_changed, get_pdoc.
  destruct (String.eqb code "ResourceNotFoundException").
  - unfold lift. cbn [pdoc].
    destruct (with_vpc_options p (create_keyword_args p (pdoc st))) as [k|e].
    + exists [create_elasticsearch_domain k]. unfold ret, call.
      cbn [calls]. split; [| right; now eexists].
      now destruct (client env (calls st) (create_elasticsearch_domain k)).
    + exists []. cbn. rewrite app_nil_r. split; [reflexivity | now left].
  - exists []. cbn. rewrite app_nil_r. split; [reflexivity | now left].
Qed.

Lemma report_log env p st :
  calls (snd (report env p st)) = (calls st ++ [describe p])%list.
Proof.
  unfold report, bind, call.
  now destruct (client env (calls st) (describe_elasticsearch_domain (name p))).
Qed.

Lemma bind_keeps_calls {A B} (m : M A) (k : A -> M B)
    (Q : list api_call -> Prop) st :
  calls (snd (m st)) = calls st ->
  Q (calls st) ->
  (forall a st1, calls st1 = calls st -> Q (calls (snd (k a st1)))) ->
  Q (calls (snd (bind m k st))).
Proof.
  intros Hm Hq Hk. unfold bind.
  destruct (m st) as [[a|e|s] st1]; cbn [snd] in *.
  - now apply Hk.
  - now rewrite Hm.
  - now rewrite Hm.
Qed.

Lemma try_body_log env p st :
  exists updates,
    calls (snd (try_body env p st)) =
    (calls st ++ describe p :: updates)%list /\
    at_most_one is_update updates.
Proof.
  unfold try_body, bind at 1, call. fold (describe p).
  set (st1 := mkLocals (changed st) (pdoc st) (calls st ++ [describe p])).
  assert (Hnone : exists updates,
             calls st1 = (calls st ++ describe p :: updates)%list /\
             at_most_one is_update updates)
    by (exists []; split; [reflexivity | now left]).
  destruct (client env (calls st) (describe p)) as [response|e];
    [| exact Hnone].
  apply (bind_keeps_calls _ _
           (fun l => exists updates,
                l = (calls st ++ describe p :: updates)%list /\
                at_most_one is_update updates) st1);
    [now destruct (py_getitem response "DomainStatus") | exact Hnone |].
  intros status st2 H2.
  apply (bind_keeps_calls _ _
           (fun l => exists updates,
                l = (calls st ++ describe p :: updates)%list /\
                at_most_one is_update updates) st2);
    [apply (normalize_policy_frame status (access_policies p) st2)
    | now rewrite H2 |].
  intros policy_dict st3 H3.
  apply (bind_keeps_calls _ _
           (fun l => exists updates,
                l = (calls st ++ describe p :: updates)%list /\
                at_most_one is_update updates) st3);
    [apply (detect_changes_frame env p status policy_dict st3)
    | now rewrite H3, H2 |].
  intros [] st4 H4.
  destruct (update_if_changed_log env p st4) as (updates & Hu & Hone).
  exists updates. split; [|exact Hone].
  rewrite Hu, H4, H3, H2. cbn [calls st1]. now rewrite <- app_assoc.
Qed.

Lemma reconcile_log env p st :
  exists updates creates,
    calls (snd (reconcile env p st)) =
    (calls st ++ describe p :: updates ++ creates)%list /\
    at_most_one is_update updates /\
    at_most_one is_create creates.
Proof.
  unfold reconcile, try_except_ClientError.
  destruct (try_body_log env p st) as (updates & Hu & Hone).
  assert (Hnone : exists updates creates,
             calls (snd (try_body env p st)) =
             (calls st ++ describe p :: updates ++ creates)%list /\
             at_most_one is_update updates /\
             at_most_one is_create creates).
  { exists updates, []. rewrite app_nil_r. repeat split; auto. now left. }
  destruct (try_body env p st) as [[a|e|x] st1]; try exact Hnone.
  destruct e; try exact Hnone.
  destruct (except_ClientError_log env p Code Message st1)
    as (creates & Hc & Hcone).
  exists updates, creates. repeat split; auto.
  rewrite Hc. cbn [snd] in Hu. rewrite Hu.
  now rewrite <- app_assoc.
Qed.

(** The log of an invocation has the shape of [log_shape]. *)
Lemma main_log_shape env p : log_shape p (snd (main env p)).
Proof.
  rewrite main_run. cbn [snd]. unfold main_body.
  destruct (HAS_BOTO env); [|now left]. cbn [negb].
  destruct (json_dumps (PDict (access_policies p))) as [s|e]; [|now left].
  right.
  change (bind (set_changed false)
            (fun _ => bind (set_pdoc s)
                        (fun _ => bind (reconcile env p)
                                    (fun _ => report env p))) entry)
    with (bind (reconcile env p) (fun _ => report env p)
            (mkLocals false s [])).
  destruct (reconcile_log env p (mkLocals false s []))
    as (updates & creates & Hl & Hu & Hc).
  cbn [calls app] in Hl. unfold bind.
  destruct (reconcile env p (mkLocals false s [])) as [[[]|e|x] st1];
    cbn [snd] in *.
  - exists updates, creates, [describe p]. repeat split; auto.
    rewrite report_log, Hl. cbn [app]. now rewrite <- app_assoc.
  - exists updates, creates, []. rewrite app_nil_r. repeat split; auto.
  - exists updates, creates, []. rewrite app_nil_r. repeat split; auto.
Qed.

(** *** A status that stores what the routine sends *)

Lemma block_equal_itself (status : pydict) key (desired : pydict) :
  dict_get status key = Some (PDict desired) ->
  well_formed (PDict desired) = true ->
  block_equal status key desired = true.
Proof.
  intros Hg Hwf. unfold block_equal. rewrite Hg. now apply py_eq_refl.
Qed.

Lemma stores_in_sync env p status arn :
  well_formed (PDict (access_policies p)) = true ->
  stores env p status arn ->
  in_sync env p status arn = true.
Proof.
  intros Hwf (Hc & He & Hg & Hs & Hv & text & Ht & Hl).
  unfold in_sync.
  rewrite (block_equal_itself _ _ _ Hc (well_formed_cluster_config p)).
  rewrite (block_equal_itself _ _ _ He (well_formed_ebs_options p)).
  rewrite (block_equal_itself _ _ _ Hg (well_formed_cognito_options p)).
  rewrite (block_equal_itself _ _ _ Hs eq_refl).
  assert (Hvpc : vpc_equal status p = true).
  { unfold vpc_equal.
    destruct Hv as [-> | (current & subnets & groups & -> & H1 & H2 & H3 & H4)];
      [reflexivity|].
    unfold field_equal. rewrite H1, H2, H3, H4.
    now rewrite !py_eq_refl by apply well_formed_str_list. }
  rewrite Hvpc. unfold policy_equal. rewrite Ht, Hl.
  now rewrite py_eq_refl by (now apply well_formed_populated).
Qed.

(** *** Comparisons that raise *)

Lemma vpc_options_no_security_groups p :
  no_security_groups p = true ->
  dict_get (vpc_options p) "SecurityGroupIds" = None.
Proof.
  unfold no_security_groups, vpc_options. intros H.
  destruct (vpc_security_groups p) as [[|y l']|]; try discriminate;
    destruct (vpc_subnets p) as [[|x l]|]; reflexivity.
Qed.

Lemma compare_block_missing status key desired st :
  dict_get status key = None ->
  compare_block (PDict status) key desired st = (Raise (KeyError key), st).
Proof.
  intros H. rewrite compare_block_run. unfold py_getitem. now rewrite H.
Qed.

(** The comparisons raise [KeyError] at the first of the first blocks that
    the status lacks, with no call issued. *)
Lemma detect_changes_missing env p status policy_dict pre key post st :
  first_blocks = (pre ++ key :: post)%list ->
  forallb (dict_mem status) pre = true ->
  dict_get status key = None ->
  exists st1,
    detect_changes env p (PDict status) policy_dict st =
    (Raise (KeyError key), st1) /\ calls st1 = calls st.
Proof.
  intros Hsplit Hpre Hkey. unfold detect_changes, first_blocks in *.
  destruct pre as [|a [|b [|c pre]]]; cbn [app] in Hsplit.
  - injection Hsplit as <- _.
    rewrite (bind_Raise _ _ _ _ _ (compare_block_missing _ _ _ _ Hkey)).
    now eexists.
  - injection Hsplit as <- <- _. cbn [forallb] in Hpre.
    apply andb_true_iff in Hpre. destruct Hpre as [Ha _].
    rewrite (bind_Val _ _ _ _ _ (compare_block_present _ _ _ _ Ha)).
    rewrite (bind_Raise _ _ _ _ _ (compare_block_missing _ _ _ _ Hkey)).
    now eexists.
  - injection Hsplit as <- <- <- _. cbn [forallb] in Hpre.
    apply andb_true_iff in Hpre. destruct Hpre as [Ha Hb].
    apply andb_true_iff in Hb. destruct Hb as [Hb _].
    rewrite (bind_Val _ _ _ _ _ (compare_block_present _ _ _ _ Ha)).
    rewrite (bind_Val _ _ _ _ _ (compare_block_present _ _ _ _ Hb)).
    rewrite (bind_Raise _ _ _ _ _ (compare_block_missing _ _ _ _ Hkey)).
    now eexists.
  - injection Hsplit as _ _ _ H. now destruct pre.
Qed.

(** The comparison of the VPC options raises [KeyError] at the key the
    desired options lack. *)
Lemma compare_vpc_missing status current p key st :
  dict_get status "VPCOptions" = Some (PDict current) ->
  dict_mem current "SubnetIds" = true ->
  dict_mem current "SecurityGroupIds" = true ->
  missing_vpc_key p = Some key ->
  exists st1,
    compare_vpc (PDict status) p st = (Raise (KeyError key), st1) /\
    calls st1 = calls st.
Proof.
  intros Hv Hs Hg Hkey. unfold compare_vpc.
  rewrite (bind_Val _ _ st true st)
    by (cbn; unfold dict_mem; now rewrite Hv).
  cbn [when]. unfold missing_vpc_key in Hkey.
  assert (Hfield : forall k st0,
             dict_mem current k = true ->
             dict_get (vpc_options p) k = None ->
             compare_vpc_field (PDict status) p k st0 =
             (Raise (KeyError k), st0)).
  { intros k st0 Hc Hd. unfold compare_vpc_field, bind, lift.
    unfold py_getitem at 1. rewrite Hv. cbn [ret].
    unfold py_getitem, dict_mem in *.
    destruct (dict_get current k); [|discriminate]. cbn [ret].
    now rewrite Hd. }
  destruct (no_subnets p) eqn:Hno.
  - injection Hkey as <-.
    rewrite (bind_Raise _ _ _ _ _
               (Hfield _ st Hs (vpc_options_no_subnets _ Hno))).
    now eexists.
  - destruct (no_security_groups p) eqn:Hng; [|discriminate].
    injection Hkey as <-.
    destruct (vpc_options_subnets _ Hno) as (x & l & Hd).
    assert (Hm : dict_mem (vpc_options p) "SubnetIds" = true)
      by (unfold dict_mem; now rewrite Hd).
    rewrite (bind_Val _ _ _ _ _
               (compare_vpc_field_present _ _ _ "SubnetIds" st Hv Hs Hm)).
    rewrite (Hfield _ _ Hg (vpc_options_no_security_groups _ Hng)).
    now eexists.
Qed.

(** *** An update that goes through *)


End CaseFacts.

(* ================================================================== *)
(** ** The properties of the specification *)
(* ================================================================== *)

Import Py Exec Es Spec Sample ValueFacts ExecFacts EsFacts.




(** C2, at an input where the routine fails it.  The domain of the example
    exists with a larger volume than asked for.  With the VPC parameters of
    the example the invocation issues one update and reports
    [changed = true]; without them ([vpc_subnets] is optional) the change
    is detected and the invocation raises [KeyError('SubnetIds')] before
    the update: no update is issued and nothing is reported. *)
Theorem update_without_subnets_raises :
  (exists final k,
      main (env_of (existing (larger_volume (status_of my_cluster true))))
        my_cluster =
      (Exited (ExitJson true final),
       [describe my_cluster; update_elasticsearch_domain_config k;
        describe my_cluster]) /\
      dict_get k "EBSOptions" = Some (PDict (ebs_options my_cluster))) /\
  main (env_of (existing (larger_volume (status_of my_cluster false))))
    (no_vpc my_cluster) =
  (Uncaught (KeyError "SubnetIds"), [describe my_cluster]).
Proof.
  split.
  - do 2 eexists. split; vm_compute; reflexivity.
  - vm_compute. reflexivity.
Qed.

(** C3, at an input where the routine fails it.  The domain of the example
    does not exist.  With the VPC parameters of the example the invocation
    issues one create, with the encryption-at-rest options, and reports
    [changed = true]; without them the invocation raises
    [KeyError('SubnetIds')] in the handler, before the create: no create is
    issued and nothing is reported. *)
Theorem create_without_subnets_raises :
  (exists final k,
      main (env_of (missing (status_of my_cluster true))) my_cluster =
      (Exited (ExitJson true final),
       [describe my_cluster; create_elasticsearch_domain k;
        describe my_cluster]) /\
      dict_get k "EncryptionAtRestOptions" =
      Some (PDict (encryption_at_rest_options my_cluster))) /\
  main (env_of (missing (status_of my_cluster false))) (no_vpc my_cluster) =
  (Uncaught (KeyError "SubnetIds"), [describe my_cluster]).
Proof.
  split.
  - do 2 eexists. split; vm_compute; reflexivity.
  - vm_compute. reflexivity.
Qed.




(** C5.  When the read of the domain fails with a provider error whose code
    is not [ResourceNotFoundException], the invocation fails with the
    message [Error: <code> <message>], and its only call is the read. *)
Theorem other_provider_error_is_fatal env p code message :
  read_fails env p code message ->
  code <> "ResourceNotFoundException" ->
  main env p =
  (Exited (FailJson ("Error: " ++ code ++ " " ++ message)), [describe p]).
Proof.
  intros Hr Hcode.
  rewrite main_run, (main_body_read_fails _ _ _ _ Hr).
  unfold bind. rewrite !(reconcile_read_fails _ _ _ _ Hr).
  unfold except_ClientError, bind, set_changed.
  apply String.eqb_neq in Hcode. rewrite Hcode. reflexivity.
Qed.

Lemma other_provider_error_is_fatal_witness :
  main (env_of denying) my_cluster =
  (Exited (FailJson "Error: AccessDeniedException User is not authorized"),
   [describe my_cluster]).
Proof.
  apply (other_provider_error_is_fatal (env_of denying) my_cluster
           "AccessDeniedException" "User is not authorized").
  - exists "DescribeElasticsearchDomain". repeat split; reflexivity.
  - discriminate.
Defined.

(** C6, as the routine has it.  The blocks of the cluster configuration, of
    the EBS options, of the Cognito options and of the snapshot options are
    compared whole.  A field of such a block of the current state that the
    desired block does not have makes the two unequal: the invocation, if
    it reports, reports [changed = true].  Of the VPC options only the
    subnets and the security groups are compared: there, another field of
    the current state leaves the comparison as it is. *)
Theorem extra_field_sets_changed env p status arn key desired block extra v :
  existing_domain env p status arn ->
  In (key, desired) (whole_blocks p) ->
  dict_get status key = Some (PDict block) ->
  dict_get block extra = Some v ->
  dict_get desired extra = None ->
  py_eq (PDict block) (PDict desired) = false /\
  (forall c final log,
      main env p = (Exited (ExitJson c final), log) -> c = true) /\
  (forall vpc other x st,
      dict_get status "VPCOptions" = Some (PDict vpc) ->
      other <> "SubnetIds" ->
      other <> "SecurityGroupIds" ->
      compare_vpc
        (PDict (dict_set status "VPCOptions" (PDict (dict_set vpc other x))))
        p st
      = compare_vpc (PDict status) p st).
Proof.
  intros Hex Hin Hb Hx Hd.
  pose proof (py_eq_extra_key _ _ _ _ Hx Hd) as Hne.
  split; [exact Hne|]. split; [| intros; now apply compare_vpc_other].
  intros c final log Hm.
  apply main_reports in Hm. destruct Hm as (st & Hrec & Hc & _ & _).
  subst c. unfold reconcile, try_except_ClientError in Hrec.
  destruct (try_body env p (at_try p)) as [[[]|e|s] stb] eqn:Eb.
  - injection Hrec as <-.
    rewrite (try_body_existing _ _ _ _ Hex) in Eb.
    apply bind_Val_inv in Eb. destruct Eb as (policy_dict & s1 & _ & Eb).
    apply bind_Val_inv in Eb. destruct Eb as ([] & s2 & Hdet & Hup).
    rewrite (update_if_changed_stays _ _ _ _ _ Hup).
    exact (detect_changes_differs _ _ _ _ _ _ _ _ _ Hin Hb Hne Hdet).
  - destruct e; try discriminate.
    exact (except_ClientError_sets_changed _ _ _ _ _ _ _ Hrec).
  - discriminate.
Qed.

Lemma extra_field_sets_changed_witness :
  reported_changed
    (fst (main (env_of (existing (one_more_field (status_of my_cluster true))))
            my_cluster)) = Some true.
Proof.
  set (env := env_of (existing (one_more_field (status_of my_cluster true)))).
  set (c := match reported_changed (fst (main env my_cluster)) with
            | Some c => c
            | None => false
            end).
  assert (Hrun : main env my_cluster =
                 (Exited (ExitJson c
                            (reported_response (fst (main env my_cluster)))),
                  snd (main env my_cluster)))
    by (vm_compute; reflexivity).
  assert (Hc : c = true).
  { refine (proj1 (proj2 (extra_field_sets_changed
                     env my_cluster (one_more_field (status_of my_cluster true))
                     arn "EBSOptions" (ebs_options my_cluster)
                     (ebs_options my_cluster ++ [("Throughput", PInt 125)])
                     "Throughput" (PInt 125) _ _ _ _ _)) _ _ _ Hrun).
    - exists (PDict [("DomainStatus",
                      PDict (one_more_field (status_of my_cluster true)))]).
      repeat split; reflexivity.
    - right; left; reflexivity.
    - reflexivity.
    - reflexivity.
    - reflexivity. }
  rewrite Hrun. cbn [fst reported_changed]. now rewrite Hc.
Defined.

(** C6, as the specification words it, fails: on a domain in sync with the
    example but for one more field in its EBS options, the invocation
    reports [changed = true] and issues an update; without that field it
    reports [changed = false]. *)
Lemma extra_field_counterexample :
  (exists final,
      main (env_of (existing (status_of my_cluster true))) my_cluster =
      (Exited (ExitJson false final), [describe my_cluster; describe my_cluster]))
  /\
  (exists final k,
      main (env_of (existing (one_more_field (status_of my_cluster true))))
        my_cluster =
      (Exited (ExitJson true final),
       [describe my_cluster; update_elasticsearch_domain_config k;
        describe my_cluster])).
Proof.
  split.
  - eexists. vm_compute. reflexivity.
  - do 2 eexists. vm_compute. reflexivity.
Qed.

(** C7.  The encryption-at-rest options go to the provider on the create
    path only: every create call of an invocation carries the options built
    from the parameters, no update call has them, and they are not compared:
    an invocation that issues no create runs the same under any other
    encryption parameters. *)
Theorem encryption_only_on_create env p :
  (forall k,
      In (create_elasticsearch_domain k) (snd (main env p)) ->
      dict_get k "EncryptionAtRestOptions" =
      Some (PDict (encryption_at_rest_options p))) /\
  (forall k,
      In (update_elasticsearch_domain_config k) (snd (main env p)) ->
      dict_get k "EncryptionAtRestOptions" = None) /\
  (forall enabled kms_key_id,
      existsb is_create (snd (main env p)) = false ->
      main env (with_encryption enabled kms_key_id p) = main env p).
Proof.
  pose proof (main_calls env p) as H. rewrite Forall_forall in H.
  repeat split.
  - intros k Hin. destruct (H _ Hin) as [s Hs].
    apply with_vpc_options_OK in Hs. destruct Hs as [-> | ->].
    + reflexivity.
    + rewrite dict_get_set_other by discriminate. reflexivity.
  - intros k Hin. destruct (H _ Hin) as [s Hs].
    apply with_vpc_options_OK in Hs. destruct Hs as [-> | ->].
    + reflexivity.
    + rewrite dict_get_set_other by discriminate. reflexivity.
  - intros enabled kms_key_id. apply main_encryption.
Qed.

Lemma encryption_only_on_create_witness :
  main (env_of (existing (larger_volume (status_of my_cluster true))))
    (with_encryption true (Some "alias/aws/es") my_cluster) =
  main (env_of (existing (larger_volume (status_of my_cluster true))))
    my_cluster.
Proof.
  refine (proj2 (proj2 (encryption_only_on_create
                          (env_of (existing (larger_volume
                                               (status_of my_cluster true))))
                          my_cluster))
            true (Some "alias/aws/es") _).
  vm_compute. reflexivity.
Defined.

(** C8.  When the access policy cannot be serialized to JSON, the invocation
    fails before any provider call; with the SDK present the message is the
    one of the failed conversion. *)
Theorem unserializable_policy_is_fatal env p e :
  json_dumps (PDict (access_policies p)) = Err e ->
  (exists msg, main env p = (Exited (FailJson msg), [])) /\
  (HAS_BOTO env = true ->
   main env p =
   (Exited (FailJson ("Failed to convert the policy into valid JSON: "
                      ++ exn_str e)), [])).
Proof.
  intros He. rewrite main_run. unfold main_body.
  destruct (HAS_BOTO env); cbn [negb].
  - rewrite He. split; [eexists|intros _]; reflexivity.
  - split; [eexists; reflexivity | discriminate].
Qed.

Lemma unserializable_policy_is_fatal_witness :
  main (env_of (existing (status_of my_cluster true)))
    (with_policy [("Version", PObject 10)] my_cluster) =
  (Exited (FailJson
     "Failed to convert the policy into valid JSON: Object of type object is not JSON serializable"),
   []).
Proof.
  refine (proj2 (unserializable_policy_is_fatal
                   (env_of (existing (status_of my_cluster true)))
                   (with_policy [("Version", PObject 10)] my_cluster)
                   (TypeError "Object of type object is not JSON serializable")
                   _) _); reflexivity.
Defined.

(** C9.  When [vpc_subnets] is absent or empty, every attempt to write
    raises [KeyError('SubnetIds')], unhandled, before the call: the update
    block once a change is detected, and the create branch once the read has
    failed with [ResourceNotFoundException].  Such an invocation issues no
    update and no create, and never reports a change. *)
Theorem writes_without_subnets_raise env p :
  no_subnets p = true ->
  (forall st,
      changed st = true ->
      update_if_changed env p st = (Raise (KeyError "SubnetIds"), st)) /\
  (forall response status policy_dict st0 st1,
      reads env p (OK response) ->
      py_getitem response "DomainStatus" = OK status ->
      normalize_policy status (access_policies p)
        (after_read p (json_text (PDict (access_policies p))))
      = (Val policy_dict, st0) ->
      detect_changes env p status policy_dict st0 = (Val tt, st1) ->
      changed st1 = true ->
      main env p = (Uncaught (KeyError "SubnetIds"), [describe p])) /\
  (forall message,
      read_fails env p "ResourceNotFoundException" message ->
      main env p = (Uncaught (KeyError "SubnetIds"), [describe p])) /\
  existsb is_write (snd (main env p)) = false /\
  (forall c final,
      fst (main env p) = Exited (ExitJson c final) -> c = false).
Proof.
  intros Hno. repeat split.
  - intros st Hc. now apply update_if_changed_no_subnets.
  - intros response status policy_dict st0 st1 Hr Hs Hn Hd Hc.
    rewrite main_run, (main_body_reads _ _ _ Hr).
    assert (Hcalls : calls st1 = [describe p]).
    { pose proof (normalize_policy_frame status (access_policies p)
                    (after_read p (json_text (PDict (access_policies p)))))
        as F1.
      pose proof (detect_changes_frame env p status policy_dict st0) as F2.
      rewrite Hn in F1. rewrite Hd in F2. simpl in F1, F2.
      destruct F1 as [_ F1]. destruct F2 as (_ & F2 & _). congruence. }
    assert (Ht : reconcile env p (at_try p) =
                 (Raise (KeyError "SubnetIds"), st1)).
    { unfold reconcile, try_except_ClientError, try_body.
      rewrite (bind_Val _ _ _ _ _ (first_read _ _ _ Hr)).
      rewrite (bind_Val _ _ _ status _) by (now rewrite Hs).
      rewrite (bind_Val _ _ _ _ _ Hn), (bind_Val _ _ _ _ _ Hd).
      now rewrite (update_if_changed_no_subnets _ _ _ Hno Hc). }
    rewrite (bind_Raise _ _ _ _ _ Ht). cbn. now rewrite Hcalls.
  - intros message Hr.
    rewrite main_run, (main_body_read_fails _ _ _ _ Hr).
    unfold bind. rewrite !(reconcile_read_fails _ _ _ _ Hr).
    now rewrite (except_ClientError_no_subnets _ _ _ _ Hno).
  - pose proof (main_calls env p) as H.
    induction H as [|c l Hc Hl IH]; [reflexivity|].
    cbn [existsb]. rewrite IH, orb_false_r.
    destruct c as [n|k|k]; [reflexivity| |];
      destruct Hc as [s Hs];
      rewrite (with_vpc_options_no_subnets _ _ Hno) in Hs; discriminate.
  - intros c final Hm.
    destruct (main env p) as [o log] eqn:E. cbn in Hm. subst o.
    apply main_reports in E. destruct E as (st & Hrec & <- & _ & _).
    unfold reconcile, try_except_ClientError in Hrec.
    destruct (try_body env p (at_try p)) as [[[]|e|s] stb] eqn:Eb.
    + injection Hrec as <-. unfold try_body in Eb.
      apply bind_Val_inv in Eb. destruct Eb as (response & s1 & _ & Eb).
      apply bind_Val_inv in Eb. destruct Eb as (status & s2 & _ & Eb).
      apply bind_Val_inv in Eb. destruct Eb as (policy_dict & s3 & _ & Eb).
      apply bind_Val_inv in Eb. destruct Eb as ([] & s4 & _ & Hup).
      rewrite (update_if_changed_stays _ _ _ _ _ Hup).
      destruct (changed s4) eqn:Hc; [|reflexivity].
      rewrite (update_if_changed_no_subnets _ _ _ Hno Hc) in Hup.
      discriminate.
    + destruct e; try discriminate.
      revert Hrec. unfold except_ClientError, bind, set_changed.
      destruct (String.eqb Code "ResourceNotFoundException") eqn:Ec.
      * unfold get_pdoc, lift. cbn [pdoc].
        now rewrite (with_vpc_options_no_subnets _ _ Hno).
      * discriminate.
    + discriminate.
Qed.

Lemma writes_without_subnets_raise_witness :
  main (env_of (missing (status_of my_cluster false))) (no_vpc my_cluster) =
  (Uncaught (KeyError "SubnetIds"), [describe my_cluster]) /\
  main (env_of (existing (larger_volume (status_of my_cluster false))))
    (no_vpc my_cluster) =
  (Uncaught (KeyError "SubnetIds"), [describe my_cluster]).
Proof.
  split.
  - refine (proj1 (proj2 (proj2 (writes_without_subnets_raise
                                   (env_of (missing (status_of my_cluster false)))
                                   (no_vpc my_cluster) _)))
              "Domain not found: my-cluster" _).
    + reflexivity.
    + exists "DescribeElasticsearchDomain". repeat split; reflexivity.
  - refine (proj1 (proj2 (writes_without_subnets_raise
                            (env_of (existing (larger_volume
                                                 (status_of my_cluster false))))
                            (no_vpc my_cluster) _))
              (PDict [("DomainStatus",
                       PDict (larger_volume (status_of my_cluster false)))])
              (PDict (larger_volume (status_of my_cluster false)))
              (populated arn policy)
              (after_read my_cluster (text_of stored_policy))
              (mkLocals true (text_of stored_policy) [describe my_cluster])
              _ _ _ _ _).
    + reflexivity.
    + repeat split; reflexivity.
    + reflexivity.
    + vm_compute. reflexivity.
    + vm_compute. reflexivity.
    + reflexivity.
Defined.

(** C10.  On an existing domain, an access policy without a top-level
    [Statement] key makes the invocation raise [KeyError('Statement')],
    unhandled, right after the read: no diff is reported and no
    configuration error. *)
Theorem policy_without_statement_raises env p response status :
  reads env p (OK response) ->
  py_getitem response "DomainStatus" = OK status ->
  dict_get (access_policies p) "Statement" = None ->
  main env p = (Uncaught (KeyError "Statement"), [describe p]).
Proof.
  intros Hr Hs Hst.
  rewrite main_run, (main_body_reads _ _ _ Hr).
  assert (Ht : reconcile env p (at_try p) =
               (Raise (KeyError "Statement"),
                after_read p (json_text (PDict (access_policies p))))).
  { unfold reconcile, try_except_ClientError, try_body.
    rewrite (bind_Val _ _ _ _ _ (first_read _ _ _ Hr)).
    rewrite (bind_Val _ _ _ status _) by (now rewrite Hs).
    unfold normalize_policy.
    rewrite (bind_Raise _ _ _ (KeyError "Statement") _)
      by (unfold py_getitem; now rewrite Hst).
    reflexivity. }
  now rewrite (bind_Raise _ _ _ _ _ Ht).
Qed.

Lemma policy_without_statement_raises_witness :
  main (env_of (existing (status_of my_cluster true)))
    (with_policy [("Version", PStr "2012-10-17")] my_cluster) =
  (Uncaught (KeyError "Statement"), [describe my_cluster]).
Proof.
  apply (policy_without_statement_raises
           (env_of (existing (status_of my_cluster true)))
           (with_policy [("Version", PStr "2012-10-17")] my_cluster)
           (PDict [("DomainStatus", PDict (status_of my_cluster true))])
           (PDict (status_of my_cluster true))).
  - repeat split; reflexivity.
  - reflexivity.
  - reflexivity.
Defined.

(* ================================================================== *)
(** ** Further properties of the routine *)
(* ================================================================== *)

Import Cases CaseFacts.

(** The VPC guard of lines 400-401 and 421-422 passes exactly when
    [vpc_subnets] is given and not empty, and then always attaches the VPC
    options: the right operand of its [or] is never evaluated.  Security
    groups without subnets raise [KeyError('SubnetIds')]. *)
Theorem vpc_guard_follows_subnets p keyword_args :
  with_vpc_options p keyword_args =
  if no_subnets p then Err (KeyError "SubnetIds")
  else OK (dict_set keyword_args "VPCOptions" (PDict (vpc_options p))).
Proof.
  destruct (no_subnets p) eqn:H.
  - now apply with_vpc_options_no_subnets.
  - now apply with_vpc_options_subnets.
Qed.

(** A missing domain is created (lines 405-424, 429-431): when the read
    fails with [ResourceNotFoundException], [vpc_subnets] is given and the
    provider accepts the create and the final read, the invocation issues
    one create, with the policy as given and the VPC options, and reports
    [changed = true] with the answer of the final read. *)
Theorem missing_domain_is_created env p message created final :
  read_fails env p "ResourceNotFoundException" message ->
  no_subnets p = false ->
  let k := in_vpc p (create_keyword_args p
                       (json_text (PDict (access_policies p)))) in
  client env [describe p] (create_elasticsearch_domain k) = OK created ->
  client env [describe p; create_elasticsearch_domain k] (describe p)
  = OK final ->
  main env p =
  (Exited (ExitJson true final),
   [describe p; create_elasticsearch_domain k; describe p]).
Proof.
  intros Hr Hno k Hc Hf.
  apply create_run with (message := message) (created := created); auto.
  now apply with_vpc_options_subnets.
Qed.

Lemma missing_domain_is_created_witness :
  fst (main (env_of (missing (status_of my_cluster true))) my_cluster) =
  Exited (ExitJson true
            (PDict [("DomainStatus", PDict (status_of my_cluster true))])).
Proof.
  refine (f_equal fst
            (missing_domain_is_created
               (env_of (missing (status_of my_cluster true))) my_cluster
               "Domain not found: my-cluster"
               (PDict [("DomainStatus", PDict (status_of my_cluster true))])
               (PDict [("DomainStatus", PDict (status_of my_cluster true))])
               _ _ _ _)).
  - exists "DescribeElasticsearchDomain". repeat split; reflexivity.
  - reflexivity.
  - reflexivity.
  - reflexivity.
Defined.



(** A failed update (lines 403-427).  The [try] block covers the update:
    when it raises a provider error with a code other than
    [ResourceNotFoundException] the invocation fails with
    [Error: <code> <message>]; when it raises anything that is not a
    provider error the exception is unhandled.  In both cases the update is
    the last call: no create, no final read. *)
Theorem failed_update_ends_invocation env p status arn e :
  existing_domain env p status arn ->
  policy_document (access_policies p) = true ->
  comparable env p status = true ->
  in_sync env p status arn = false ->
  no_subnets p = false ->
  (forall message operation,
      e <> ClientError "ResourceNotFoundException" message operation) ->
  let k := in_vpc p (update_keyword_args p (populated_text arn p)) in
  client env [describe p] (update_elasticsearch_domain_config k) = Err e ->
  main env p =
  (match e with
   | ClientError code message _ =>
       Exited (FailJson ("Error: " ++ code ++ " " ++ message))
   | _ => Uncaught e
   end,
   [describe p; update_elasticsearch_domain_config k]).
Proof.
  intros Hex Hdoc Hcmp Hsync Hno He k Hu.
  rewrite (main_existing _ _ _ _ Hex).
  unfold bind at 1 2.
  rewrite (reconcile_out_of_sync _ _ _ _ Hex Hdoc Hcmp Hsync Hno).
  unfold try_except_ClientError, bind, call. cbn [calls changed pdoc].
  fold k. rewrite Hu.
  destruct e as [key|msg|msg|code message operation|msg]; try reflexivity.
  unfold except_ClientError, bind, set_changed.
  destruct (String.eqb code "ResourceNotFoundException") eqn:E;
    [|reflexivity].
  apply String.eqb_eq in E. subst code. now destruct (He message operation).
Qed.

Lemma failed_update_ends_invocation_witness :
  main (env_of (scripted
                  [ describing (larger_volume (status_of my_cluster true));
                    Err (ClientError "ValidationException"
                           "Volume size must be at least 10"
                           "UpdateElasticsearchDomainConfig") ]))
    my_cluster =
  (Exited (FailJson
             "Error: ValidationException Volume size must be at least 10"),
   [ describe my_cluster;
     update_elasticsearch_domain_config
       (in_vpc my_cluster
          (update_keyword_args my_cluster (populated_text arn my_cluster))) ]).
Proof.
  apply (failed_update_ends_invocation
           (env_of (scripted
                      [ describing (larger_volume (status_of my_cluster true));
                        Err (ClientError "ValidationException"
                               "Volume size must be at least 10"
                               "UpdateElasticsearchDomainConfig") ]))
           my_cluster (larger_volume (status_of my_cluster true)) arn
           (ClientError "ValidationException" "Volume size must be at least 10"
              "UpdateElasticsearchDomainConfig")).
  - exists (PDict [("DomainStatus",
                    PDict (larger_volume (status_of my_cluster true)))]).
    repeat split; reflexivity.
  - reflexivity.
  - vm_compute; reflexivity.
  - vm_compute; reflexivity.
  - reflexivity.
  - discriminate.
  - reflexivity.
Defined.

(** An update answered with [ResourceNotFoundException] (lines 403-424):
    the handler of the [try] block takes it for a missing domain and issues
    a create after the update, with the populated policy the update carried
    and the encryption-at-rest options. *)
Theorem update_not_found_falls_into_create env p status arn message operation
    created final :
  existing_domain env p status arn ->
  policy_document (access_policies p) = true ->
  comparable env p status = true ->
  in_sync env p status arn = false ->
  no_subnets p = false ->
  let k := in_vpc p (update_keyword_args p (populated_text arn p)) in
  let k' := in_vpc p (create_keyword_args p (populated_text arn p)) in
  client env [describe p] (update_elasticsearch_domain_config k) =
  Err (ClientError "ResourceNotFoundException" message operation) ->
  client env [describe p; update_elasticsearch_domain_config k]
    (create_elasticsearch_domain k') = OK created ->
  client env [describe p; update_elasticsearch_domain_config k;
              create_elasticsearch_domain k'] (describe p) = OK final ->
  main env p =
  (Exited (ExitJson true final),
   [describe p; update_elasticsearch_domain_config k;
    create_elasticsearch_domain k'; describe p]).
Proof.
  intros Hex Hdoc Hcmp Hsync Hno k k' Hu Hc Hf.
  rewrite (main_existing _ _ _ _ Hex).
  assert (Ht : reconcile env p (at_try p) =
               (Val tt, mkLocals true (populated_text arn p)
                          [describe p; update_elasticsearch_domain_config k;
                           create_elasticsearch_domain k'])).
  { rewrite (reconcile_out_of_sync _ _ _ _ Hex Hdoc Hcmp Hsync Hno).
    unfold try_except_ClientError, bind, call. cbn [calls changed pdoc].
    fold k. rewrite Hu.
    unfold except_ClientError, bind, set_changed, get_pdoc, lift.
    cbn [String.eqb Ascii.eqb Bool.eqb pdoc calls changed].
    rewrite (with_vpc_options_subnets _ _ Hno). fold k'.
    unfold ret, call. cbn [calls changed pdoc app]. now rewrite Hc. }
  rewrite (bind_Val _ _ _ _ _ Ht).
  unfold report, bind, call. cbn [calls changed pdoc app].
  fold (describe p). rewrite Hf. reflexivity.
Qed.

Lemma update_not_found_falls_into_create_witness :
  snd (main (env_of (scripted
                       [ describing (larger_volume (status_of my_cluster true));
                         not_found;
                         describing (status_of my_cluster true);
                         describing (status_of my_cluster true) ]))
         my_cluster) =
  [ describe my_cluster;
    update_elasticsearch_domain_config
      (in_vpc my_cluster
         (update_keyword_args my_cluster (populated_text arn my_cluster)));
    create_elasticsearch_domain
      (in_vpc my_cluster
         (create_keyword_args my_cluster (populated_text arn my_cluster)));
    describe my_cluster ].
Proof.
  refine (f_equal snd
            (update_not_found_falls_into_create
               (env_of (scripted
                          [ describing (larger_volume
                                          (status_of my_cluster true));
                            not_found;
                            describing (status_of my_cluster true);
                            describing (status_of my_cluster true) ]))
               my_cluster (larger_volume (status_of my_cluster true)) arn
               "Domain not found: my-cluster" "DescribeElasticsearchDomain"
               (PDict [("DomainStatus", PDict (status_of my_cluster true))])
               (PDict [("DomainStatus", PDict (status_of my_cluster true))])
               _ _ _ _ _ _ _ _)).
  - exists (PDict [("DomainStatus",
                    PDict (larger_volume (status_of my_cluster true)))]).
    repeat split; reflexivity.
  - reflexivity.
  - vm_compute; reflexivity.
  - vm_compute; reflexivity.
  - reflexivity.
  - reflexivity.
  - reflexivity.
  - reflexivity.
Defined.

(** A failed create (lines 405-424).  The create is issued inside the
    handler, where nothing is handled: whatever it raises, a provider error
    included, ends the invocation unhandled; it is the last call. *)
Theorem failed_create_is_unhandled env p message e :
  read_fails env p "ResourceNotFoundException" message ->
  no_subnets p = false ->
  let k := in_vpc p (create_keyword_args p
                       (json_text (PDict (access_policies p)))) in
  client env [describe p] (create_elasticsearch_domain k) = Err e ->
  main env p = (Uncaught e, [describe p; create_elasticsearch_domain k]).
Proof.
  intros Hr Hno k Hc.
  rewrite (main_read_fails _ _ _ _ Hr).
  unfold bind. rewrite !(reconcile_read_fails _ _ _ _ Hr).
  unfold except_ClientError, bind, set_changed, get_pdoc, lift, after_read.
  cbn [String.eqb Ascii.eqb Bool.eqb pdoc calls changed].
  rewrite (with_vpc_options_subnets _ _ Hno). fold k.
  unfold ret, call. cbn [calls changed pdoc]. now rewrite Hc.
Qed.

Lemma failed_create_is_unhandled_witness :
  main (env_of (scripted
                  [ not_found;
                    Err (ClientError "LimitExceededException"
                           "Too many domains" "CreateElasticsearchDomain") ]))
    my_cluster =
  (Uncaught (ClientError "LimitExceededException" "Too many domains"
               "CreateElasticsearchDomain"),
   [ describe my_cluster;
     create_elasticsearch_domain
       (in_vpc my_cluster
          (create_keyword_args my_cluster
             (json_text (PDict (access_policies my_cluster))))) ]).
Proof.
  apply (failed_create_is_unhandled
           (env_of (scripted
                      [ not_found;
                        Err (ClientError "LimitExceededException"
                               "Too many domains"
                               "CreateElasticsearchDomain") ]))
           my_cluster "Domain not found: my-cluster").
  - exists "DescribeElasticsearchDomain". repeat split; reflexivity.
  - reflexivity.
  - reflexivity.
Defined.

(** A failed final read (lines 429-431).  The final read is outside the
    [try]: whatever it raises ends the invocation unhandled, without a
    report, also after a create that went through. *)
Theorem failed_final_read_is_unhandled env p message created e :
  read_fails env p "ResourceNotFoundException" message ->
  no_subnets p = false ->
  let k := in_vpc p (create_keyword_args p
                       (json_text (PDict (access_policies p)))) in
  client env [describe p] (create_elasticsearch_domain k) = OK created ->
  client env [describe p; create_elasticsearch_domain k] (describe p)
  = Err e ->
  main env p =
  (Uncaught e, [describe p; create_elasticsearch_domain k; describe p]).
Proof.
  intros Hr Hno k Hc Hf.
  rewrite (main_read_fails _ _ _ _ Hr).
  unfold bind. rewrite !(reconcile_read_fails _ _ _ _ Hr).
  unfold except_ClientError, bind, set_changed, get_pdoc, lift, after_read.
  cbn [String.eqb Ascii.eqb Bool.eqb pdoc calls changed].
  rewrite (with_vpc_options_subnets _ _ Hno). fold k.
  unfold ret, call. cbn [calls changed pdoc]. rewrite Hc.
  unfold report, bind, call. cbn [calls changed pdoc app].
  fold (describe p). now rewrite Hf.
Qed.

Lemma failed_final_read_is_unhandled_witness :
  fst (main (env_of (scripted
                       [ not_found;
                         describing (status_of my_cluster true);
                         Err (ClientError "ThrottlingException" "Rate exceeded"
                                "DescribeElasticsearchDomain") ]))
         my_cluster) =
  Uncaught (ClientError "ThrottlingException" "Rate exceeded"
              "DescribeElasticsearchDomain").
Proof.
  refine (f_equal fst
            (failed_final_read_is_unhandled
               (env_of (scripted
                          [ not_found;
                            describing (status_of my_cluster true);
                            Err (ClientError "ThrottlingException"
                                   "Rate exceeded"
                                   "DescribeElasticsearchDomain") ]))
               my_cluster "Domain not found: my-cluster"
               (PDict [("DomainStatus", PDict (status_of my_cluster true))])
               (ClientError "ThrottlingException" "Rate exceeded"
                  "DescribeElasticsearchDomain")
               _ _ _ _)).
  - exists "DescribeElasticsearchDomain". repeat split; reflexivity.
  - reflexivity.
  - reflexivity.
  - reflexivity.
Defined.

(** A read that fails with anything but a provider error (line 405): the
    handler catches [ClientError] only, so the exception ends the
    invocation unhandled, with the read as its only call. *)
Theorem other_read_error_is_unhandled env p e :
  reads env p (Err e) ->
  is_client_error e = false ->
  main env p = (Uncaught e, [describe p]).
Proof.
  intros Hr He.
  rewrite main_run, (main_body_reads _ _ _ Hr).
  assert (Ht : reconcile env p (at_try p) =
               (Raise e, after_read p (json_text (PDict (access_policies p))))).
  { unfold reconcile, try_except_ClientError, try_body.
    rewrite (bind_Raise _ _ _ _ _ (first_read _ _ _ Hr)).
    now destruct e. }
  now rewrite (bind_Raise _ _ _ _ _ Ht).
Qed.

Lemma other_read_error_is_unhandled_witness :
  main (env_of (scripted
                  [Err (BotoCoreError "Could not connect to the endpoint URL")]))
    my_cluster =
  (Uncaught (BotoCoreError "Could not connect to the endpoint URL"),
   [describe my_cluster]).
Proof.
  apply (other_read_error_is_unhandled
           (env_of (scripted
                      [Err (BotoCoreError
                              "Could not connect to the endpoint URL")]))
           my_cluster).
  - repeat split; reflexivity.
  - reflexivity.
Defined.



(** A statement without a resource on a status without an ARN (line 365):
    the loop raises [KeyError('ARN')], unhandled, right after the read. *)
Theorem missing_arn_raises env p response status statements :
  reads env p (OK response) ->
  py_getitem response "DomainStatus" = OK (PDict status) ->
  dict_get status "ARN" = None ->
  dict_get (access_policies p) "Statement" = Some (PList statements) ->
  forallb is_dict statements = true ->
  existsb lacks_resource statements = true ->
  main env p = (Uncaught (KeyError "ARN"), [describe p]).
Proof.
  intros Hr Hs Harn Hst Hd Hl.
  refine (main_try_raises env p _ (KeyError "ARN")
            (after_read p (json_text (PDict (access_policies p))))
            Hr _ eq_refl).
  rewrite (try_body_status _ _ _ _ Hr Hs).
  now rewrite (bind_Raise _ _ _ _ _
                 (normalize_policy_no_arn _ _ _ _ Harn Hst Hd Hl)).
Qed.

Lemma missing_arn_raises_witness :
  main (env_of (existing (tl (status_of my_cluster false)))) my_cluster =
  (Uncaught (KeyError "ARN"), [describe my_cluster]).
Proof.
  apply (missing_arn_raises
           (env_of (existing (tl (status_of my_cluster false)))) my_cluster
           (PDict [("DomainStatus", PDict (tl (status_of my_cluster false)))])
           (tl (status_of my_cluster false))
           [PDict [ ("Effect", PStr "Allow");
                    ("Principal", PDict [("AWS", PStr "*")]);
                    ("Action", PStr "es:*") ]]).
  - repeat split; reflexivity.
  - reflexivity.
  - reflexivity.
  - reflexivity.
  - reflexivity.
  - reflexivity.
Defined.

(** A policy whose [Statement] is one statement object, not a list (line
    362): the loop runs over the keys of the object; at the first key in
    which [Resource] does not occur it assigns to a string, and the
    invocation ends in an unhandled [TypeError] right after the read. *)
Theorem statement_object_raises env p status arn statement :
  existing_domain env p status arn ->
  dict_get (access_policies p) "Statement" = Some (PDict statement) ->
  existsb (fun k => negb (str_contains "Resource" k)) (map fst statement)
  = true ->
  main env p =
  (Uncaught (TypeError "'str' object does not support item assignment"),
   [describe p]).
Proof.
  intros Hex Hst Hk.
  pose proof Hex as (response & Hr & _).
  refine (main_try_raises env p _
            (TypeError "'str' object does not support item assignment")
            (after_read p (json_text (PDict (access_policies p))))
            Hr _ eq_refl).
  rewrite (try_body_existing _ _ _ _ Hex).
  now rewrite (bind_Raise _ _ _ _ _
                 (normalize_policy_object _ _ _ _ _
                    (existing_domain_arn _ _ _ _ Hex) Hst Hk)).
Qed.

Lemma statement_object_raises_witness :
  main (env_of (existing (status_of my_cluster true)))
    (with_policy
       [ ("Version", PStr "2012-10-17");
         ("Statement",
           PDict [ ("Resource", PStr (arn ++ "/*"));
                   ("Effect", PStr "Allow");
                   ("Principal", PDict [("AWS", PStr "*")]);
                   ("Action", PStr "es:*") ]) ]
       my_cluster) =
  (Uncaught (TypeError "'str' object does not support item assignment"),
   [describe my_cluster]).
Proof.
  apply (statement_object_raises
           (env_of (existing (status_of my_cluster true)))
           (with_policy
              [ ("Version", PStr "2012-10-17");
                ("Statement",
                  PDict [ ("Resource", PStr (arn ++ "/*"));
                          ("Effect", PStr "Allow");
                          ("Principal", PDict [("AWS", PStr "*")]);
                          ("Action", PStr "es:*") ]) ]
              my_cluster)
           (status_of my_cluster true) arn
           [ ("Resource", PStr (arn ++ "/*"));
             ("Effect", PStr "Allow");
             ("Principal", PDict [("AWS", PStr "*")]);
             ("Action", PStr "es:*") ]).
  - exists (PDict [("DomainStatus", PDict (status_of my_cluster true))]).
    repeat split; reflexivity.
  - reflexivity.
  - reflexivity.
Defined.

(** The calls of an invocation (lines 357, 403, 424, 430): whatever the
    parameters and the provider, the log is empty or starts with the read
    of the domain, followed by at most one update, then at most one create,
    then at most one final read.  No invocation updates twice, creates
    twice, or writes before it has read. *)
Theorem call_log_has_one_shape env p :
  log_shape p (snd (main env p)) /\
  (length (filter is_update (snd (main env p))) <= 1)%nat /\
  (length (filter is_create (snd (main env p))) <= 1)%nat /\
  (existsb is_write (snd (main env p)) = true ->
   hd_error (snd (main env p)) = Some (describe p)).
Proof.
  pose proof (main_log_shape env p) as H. split; [exact H|].
  destruct H as [-> | (updates & creates & reads & -> & Hu & Hc & Hr)].
  - cbn. repeat split; auto. discriminate.
  - destruct Hu as [-> | (x & Hx & ->)], Hc as [-> | (y & Hy & ->)],
      Hr as [-> | ->];
      try (destruct x as [n|k|k]; try discriminate Hx);
      try (destruct y as [n'|k'|k']; try discriminate Hy);
      cbn; repeat split; auto.
Qed.

(** A status that stores what the routine sends is in sync (lines
    368-388).  The desired access policy is a policy document (its
    [Statement] is a list of statement objects) in which no dictionary
    repeats a key, and the domain exists.  When the blocks of the status
    are the desired blocks, its VPC options (if any) hold the desired
    subnets and security groups, its policy text decodes to the populated
    policy, and the final read is answered, every comparison finds the two
    sides equal and the invocation reports [changed = false] with no write.
    A second invocation after an update that the provider has stored
    changes nothing. *)
Theorem stored_configuration_is_in_sync env p status arn final :
  existing_domain env p status arn ->
  policy_document (access_policies p) = true ->
  well_formed (PDict (access_policies p)) = true ->
  stores env p status arn ->
  client env [describe p] (describe p) = OK final ->
  main env p = (Exited (ExitJson false final), [describe p; describe p]).
Proof.
  intros Hex Hdoc Hwf Hst Hf.
  apply in_sync_run with (status := status) (arn := arn); auto.
  now apply stores_in_sync.
Qed.

Lemma stored_configuration_is_in_sync_witness :
  main (env_of (existing (status_of my_cluster true))) my_cluster =
  (Exited (ExitJson false
             (PDict [("DomainStatus", PDict (status_of my_cluster true))])),
   [describe my_cluster; describe my_cluster]).
Proof.
  apply (stored_configuration_is_in_sync
           (env_of (existing (status_of my_cluster true))) my_cluster
           (status_of my_cluster true) arn).
  - exists (PDict [("DomainStatus", PDict (status_of my_cluster true))]).
    repeat split; reflexivity.
  - reflexivity.
  - reflexivity.
  - repeat split; try reflexivity.
    + right.
      exists (("VPCId", PStr "vpc-0a1b2c3d") :: vpc_options my_cluster),
        ["subnet-e537d64a"; "subnet-e537d64b"],
        ["sg-dd2f13cb"; "sg-dd2f13cc"].
      repeat split; reflexivity.
    + exists (text_of stored_policy). split; reflexivity.
  - reflexivity.
Defined.

(** A status without a compared block (lines 368-375).  The domain exists
    and the desired access policy is a policy document (its [Statement] is
    a list of statement objects), so that the loop of lines 362-366 goes
    through.  When the status lacks the cluster configuration, the EBS
    options or the Cognito options, the comparison subscripts the missing
    key and the invocation ends in an unhandled [KeyError] of the first
    such key, right after the read. *)
Theorem missing_block_raises env p status arn pre key post :
  existing_domain env p status arn ->
  policy_document (access_policies p) = true ->
  first_blocks = (pre ++ key :: post)%list ->
  forallb (dict_mem status) pre = true ->
  dict_get status key = None ->
  main env p = (Uncaught (KeyError key), [describe p]).
Proof.
  intros Hex Hdoc Hsplit Hpre Hkey.
  pose proof Hex as (response & Hr & _).
  destruct (detect_changes_missing env p status
              (populated arn (access_policies p)) pre key post
              (after_read p (populated_text arn p)) Hsplit Hpre Hkey)
    as (st1 & Hd & Hc).
  replace [describe p] with (calls st1) by exact Hc.
  refine (main_try_raises env p _ (KeyError key) st1 Hr _ eq_refl).
  rewrite (try_body_existing _ _ _ _ Hex).
  rewrite (bind_Val _ _ _ _ _ (normalize_policy_at_read _ _ _ _ Hex Hdoc)).
  now rewrite (bind_Raise _ _ _ _ _ Hd).
Qed.

Lemma missing_block_raises_witness :
  main (env_of (existing
                  (filter (fun kv => negb (String.eqb (fst kv) "CognitoOptions"))
                     (status_of my_cluster true))))
    my_cluster =
  (Uncaught (KeyError "CognitoOptions"), [describe my_cluster]).
Proof.
  apply (missing_block_raises
           (env_of (existing
                      (filter (fun kv => negb (String.eqb (fst kv)
                                                 "CognitoOptions"))
                         (status_of my_cluster true))))
           my_cluster
           (filter (fun kv => negb (String.eqb (fst kv) "CognitoOptions"))
              (status_of my_cluster true))
           arn ["ElasticsearchClusterConfig"; "EBSOptions"] "CognitoOptions"
           []).
  - exists (PDict [("DomainStatus",
                    PDict (filter (fun kv => negb (String.eqb (fst kv)
                                                     "CognitoOptions"))
                             (status_of my_cluster true)))]).
    repeat split; reflexivity.
  - reflexivity.
  - reflexivity.
  - reflexivity.
  - reflexivity.
Defined.

(** A domain in a VPC needs both VPC parameters (lines 377-381).  The
    domain exists, the desired access policy is a policy document (its
    [Statement] is a list of statement objects), and the status has the
    cluster configuration, the EBS options and the Cognito options, so that
    the run reaches line 377.  When the status has VPC options that hold
    [SubnetIds] and [SecurityGroupIds], the comparison subscripts the
    desired options with the same keys; if [vpc_subnets] is absent or
    empty, or else if [vpc_security_groups] is absent or empty, the
    invocation ends in an unhandled [KeyError] of that key right after the
    read, whether the domain is in sync or not. *)
Theorem vpc_domain_needs_both_parameters env p status arn current key :
  existing_domain env p status arn ->
  policy_document (access_policies p) = true ->
  forallb (dict_mem status) first_blocks = true ->
  dict_get status "VPCOptions" = Some (PDict current) ->
  dict_mem current "SubnetIds" = true ->
  dict_mem current "SecurityGroupIds" = true ->
  missing_vpc_key p = Some key ->
  main env p = (Uncaught (KeyError key), [describe p]).
Proof.
  intros Hex Hdoc Hb Hv Hs Hg Hkey.
  pose proof Hex as (response & Hr & _).
  unfold first_blocks in Hb. cbn [forallb] in Hb.
  repeat (apply andb_true_iff in Hb; destruct Hb as [? Hb]).
  set (st0 := after_read p (populated_text arn p)).
  assert (Hd : exists st1,
             detect_changes env p (PDict status)
               (populated arn (access_policies p)) st0 =
             (Raise (KeyError key), st1) /\ calls st1 = [describe p]).
  { unfold detect_changes.
    rewrite (bind_Val _ _ _ _ _ (compare_block_present _ _ _ _ H)).
    rewrite (bind_Val _ _ _ _ _ (compare_block_present _ _ _ _ H0)).
    rewrite (bind_Val _ _ _ _ _ (compare_block_present _ _ _ _ H1)).
    match goal with
    | |- context [bind (compare_vpc _ _) _ ?st] =>
        destruct (compare_vpc_missing status current p key st Hv Hs Hg Hkey)
          as (st1 & E & Hc)
    end.
    rewrite (bind_Raise _ _ _ _ _ E). exists st1. split; [reflexivity|].
    exact Hc. }
  destruct Hd as (st1 & Hd & Hc).
  replace [describe p] with (calls st1) by exact Hc.
  refine (main_try_raises env p _ (KeyError key) st1 Hr _ eq_refl).
  rewrite (try_body_existing _ _ _ _ Hex).
  rewrite (bind_Val _ _ _ _ _ (normalize_policy_at_read _ _ _ _ Hex Hdoc)).
  now rewrite (bind_Raise _ _ _ _ _ Hd).
Qed.

Lemma vpc_domain_needs_both_parameters_witness :
  main (env_of (existing (status_of my_cluster true))) (no_vpc my_cluster) =
  (Uncaught (KeyError "SubnetIds"), [describe my_cluster]).
Proof.
  apply (vpc_domain_needs_both_parameters
           (env_of (existing (status_of my_cluster true)))
           (no_vpc my_cluster) (status_of my_cluster true) arn
           (("VPCId", PStr "vpc-0a1b2c3d") :: vpc_options my_cluster)).
  - exists (PDict [("DomainStatus", PDict (status_of my_cluster true))]).
    repeat split; reflexivity.
  - reflexivity.
  - reflexivity.
  - reflexivity.
  - reflexivity.
  - reflexivity.
  - reflexivity.
Defined.

(** What the desired configuration holds when a feature is off (lines
    281-347).  The optional fields of a block follow the flag of the block,
    not the parameters that would fill them: without zone awareness, warm
    storage, a dedicated master, EBS or encryption the fields of that
    feature are not sent, even if their parameters are given; with Cognito
    off the block is [{'Enabled': False}] alone.  [Iops] alone follows its
    own parameter: it is sent whenever [iops] is given, also with EBS
    off. *)
Theorem optional_fields_follow_flags p :
  dict_mem (cluster_config p) "ZoneAwarenessConfig" = zone_awareness p /\
  dict_mem (cluster_config p) "WarmType" = warm_enabled p /\
  dict_mem (cluster_config p) "WarmCount" = warm_enabled p /\
  dict_mem (cluster_config p) "DedicatedMasterType" = dedicated_master p /\
  dict_mem (cluster_config p) "DedicatedMasterCount" = dedicated_master p /\
  dict_mem (ebs_options p) "VolumeType" = ebs p /\
  dict_mem (ebs_options p) "VolumeSize" = ebs p /\
  dict_get (ebs_options p) "Iops" = option_map PInt (iops p) /\
  dict_mem (encryption_at_rest_options p) "KmsKeyId"
  = encryption_at_rest_enabled p /\
  (cognito_enabled p = false ->
   cognito_options p = [("Enabled", PBool false)]) /\
  dict_mem (vpc_options p) "SubnetIds" = negb (no_subnets p) /\
  dict_mem (vpc_options p) "SecurityGroupIds" = negb (no_security_groups p).
Proof.
  unfold cluster_config, ebs_options, encryption_at_rest_options,
    cognito_options, vpc_options, no_subnets, no_security_groups.
  destruct (zone_awareness p), (warm_enabled p), (dedicated_master p),
    (ebs p), (iops p), (encryption_at_rest_enabled p), (cognito_enabled p),
    (vpc_subnets p) as [[|x l]|], (vpc_security_groups p) as [[|y l']|];
    repeat split; try reflexivity; discriminate.
Qed.


